(** * The student-record Lambda handler (lambda_function.py)

    A shallow embedding of [_resp] and [lambda_handler], of the Python values
    they manipulate, and of the key-value table they talk to, followed by the
    properties of the handler.

    Layout:
    - [pyval]: the Python values [json.loads] produces, with the handful of
      Python operations the handler applies to them ([in], [.get], [.items],
      truthiness, [json.dumps]);
    - [dbval]: the Python values the table hands back, where every number is
      a [decimal.Decimal], which [json.dumps] refuses;
    - [prog]: the handler as a program that issues calls to the table and
      may raise; [try_except] is Python's [try ... except Exception];
    - [table_exec]: the table behind [table.put_item] and friends;
    - the theorems.

    What is taken from outside the file under study: [json.loads] is a
    parameter of the handler, so the theorems hold for every decoder; the
    table is the boto3 DynamoDB [Table] that lines 4-6 build, and the
    theorems that do not mention [table_exec] hold for every table. *)

From stdpp Require Import gmap strings list fin_maps pretty.
From Stdlib Require Import ZArith Ascii.

Local Open Scope string_scope.
Local Open Scope Z_scope.

(** ** Characters that cannot be typed inside a string literal *)

Definition dquote : string := String "034"%char EmptyString.
Definition backslash : string := String "092"%char EmptyString.

(** ** Python values *)

#[local] Set Warnings "-register-all".

(** A [str] is a sequence of code points below 256.  A [float] is carried by
    its [repr], which identifies it ([float(repr(x)) == x]). *)
Inductive pyval : Type :=
| PNone
| PBool (b : bool)
| PInt (n : Z)
| PFloat (repr : string)
| PStr (s : string)
| PList (l : list pyval)
| PDict (d : list (string * pyval)).

(** A [dict] with [str] keys, in insertion order. *)
Abbreviation dict := (list (string * pyval)).

(** Exceptions: the class name and [str(e)]. *)
Record exn : Type := Exc { exc_type : string; exc_str : string }.

Definition str (e : exn) : string := exc_str e.

(** The operations on a dict do not look at the values: [V] is [pyval], or
    [dbval] for what comes back from the table. *)
Fixpoint dict_get {V : Type} (k : string) (d : list (string * V)) : option V :=
  match d with
  | [] => None
  | (k', v) :: d' => if String.eqb k' k then Some v else dict_get k d'
  end.

(** [d[k] = v]: an existing key keeps its position. *)
Fixpoint dict_set {V : Type} (k : string) (v : V) (d : list (string * V))
  : list (string * V) :=
  match d with
  | [] => [(k, v)]
  | (k', v') :: d' =>
      if String.eqb k' k then (k', v) :: d' else (k', v') :: dict_set k v d'
  end.

Definition dict_has {V : Type} (k : string) (d : list (string * V)) : bool :=
  match dict_get k d with Some _ => true | None => false end.

Definition keys {V : Type} (d : list (string * V)) : list string := fst <$> d.

(** [bool(v)]. *)
Definition truthy (v : pyval) : bool :=
  match v with
  | PNone => false
  | PBool b => b
  | PInt n => negb (n =? 0)
  | PFloat r => negb (String.eqb r "0.0" || String.eqb r "-0.0")
  | PStr s => match s with EmptyString => false | _ => true end
  | PList l => match l with [] => false | _ => true end
  | PDict d => match d with [] => false | _ => true end
  end.

Definition type_name (v : pyval) : string :=
  match v with
  | PNone => "NoneType"
  | PBool _ => "bool"
  | PInt _ => "int"
  | PFloat _ => "float"
  | PStr _ => "str"
  | PList _ => "list"
  | PDict _ => "dict"
  end.

Definition TypeError (msg : string) : exn := Exc "TypeError" msg.
Definition AttributeError (msg : string) : exn := Exc "AttributeError" msg.
Definition KeyError (key : string) : exn := Exc "KeyError" ("'" +:+ key +:+ "'").

(** What botocore raises when DynamoDB refuses a request. *)
Definition ClientError (msg : string) : exn := Exc "ClientError" msg.

Definition is_substring (x s : string) : bool :=
  match String.index 0 x s with Some _ => true | None => false end.

(** [x in v] for a [str] x: key membership on a dict, element equality on a
    list, substring on a str, [TypeError] on the rest (message of
    CPython 3.12). *)
Definition py_in (x : string) (v : pyval) : exn + bool :=
  match v with
  | PDict d => inr (dict_has x d)
  | PList l =>
      inr (existsb (fun e => match e with PStr s => String.eqb s x | _ => false end) l)
  | PStr s => inr (is_substring x s)
  | _ => inl (TypeError ("argument of type '" +:+ type_name v +:+ "' is not iterable"))
  end.

Definition no_attribute (v : pyval) (attr : string) : exn :=
  AttributeError ("'" +:+ type_name v +:+ "' object has no attribute '" +:+ attr +:+ "'").

(** [v.get(k)]: only a dict has [get]. *)
Definition py_get (v : pyval) (k : string) : exn + pyval :=
  match v with
  | PDict d => inr (default PNone (dict_get k d))
  | _ => inl (no_attribute v "get")
  end.

(** [v.items()]. *)
Definition py_items (v : pyval) : exn + dict :=
  match v with
  | PDict d => inr d
  | _ => inl (no_attribute v "items")
  end.

(** [d[k]] on a dict. *)
Definition dict_getitem {V : Type} (d : list (string * V)) (k : string) : exn + V :=
  match dict_get k d with
  | Some v => inr v
  | None => inl (KeyError k)
  end.

(** ** json.dumps *)

Definition hex_digit (n : N) : ascii :=
  if (n <? 10)%N then ascii_of_N (48 + n) else ascii_of_N (87 + n).

(** The replacement [json.encoder.py_encode_basestring_ascii] makes for one
    character. *)
Definition escape_char (c : ascii) : string :=
  let n := N_of_ascii c in
  if (n =? 34)%N then backslash +:+ dquote
  else if (n =? 92)%N then backslash +:+ backslash
  else if (n =? 10)%N then backslash +:+ "n"
  else if (n =? 13)%N then backslash +:+ "r"
  else if (n =? 9)%N then backslash +:+ "t"
  else if (n =? 12)%N then backslash +:+ "f"
  else if (n =? 8)%N then backslash +:+ "b"
  else if ((32 <=? n) && (n <=? 126))%N then String c EmptyString
  else backslash +:+ "u00"
       +:+ String (hex_digit (n / 16)) (String (hex_digit (n mod 16)) EmptyString).

Fixpoint escape (s : string) : string :=
  match s with
  | EmptyString => EmptyString
  | String c s' => escape_char c +:+ escape s'
  end.

Definition encode_basestring_ascii (s : string) : string :=
  dquote +:+ escape s +:+ dquote.

Definition float_repr (r : string) : string :=
  if String.eqb r "nan" then "NaN"
  else if String.eqb r "inf" then "Infinity"
  else if String.eqb r "-inf" then "-Infinity"
  else r.

(** [json.dumps(v)] with the default separators [", "] and [": "]. *)
Fixpoint json_dumps (v : pyval) : string :=
  match v with
  | PNone => "null"
  | PBool true => "true"
  | PBool false => "false"
  | PInt n => pretty n
  | PFloat r => float_repr r
  | PStr s => encode_basestring_ascii s
  | PList l => "[" +:+ String.concat ", " (map json_dumps l) +:+ "]"
  | PDict d =>
      "{" +:+ String.concat ", "
                (map (fun '(k, x) => encode_basestring_ascii k +:+ ": " +:+ json_dumps x) d)
          +:+ "}"
  end.

(** ** The values of the table *)

(** The Python values the boto3 [Table] makes of the attributes DynamoDB
    returns: [None] for NULL, [bool], [decimal.Decimal] for every number,
    [str], [list] and [dict].  A Decimal is carried by its coefficient and
    its exponent.  Binary and set attributes, which no JSON body can
    produce, are left out. *)
Inductive dbval : Type :=
| DNone
| DBool (b : bool)
| DDecimal (coefficient exponent : Z)
| DStr (s : string)
| DList (l : list dbval)
| DDict (d : list (string * dbval)).

Abbreviation dbdict := (list (string * dbval)).

(** [bool(v)]. *)
Definition db_truthy (v : dbval) : bool :=
  match v with
  | DNone => false
  | DBool b => b
  | DDecimal c _ => negb (c =? 0)
  | DStr s => match s with EmptyString => false | _ => true end
  | DList l => match l with [] => false | _ => true end
  | DDict d => match d with [] => false | _ => true end
  end.

(** The JSON value in [v], when [v] holds no Decimal. *)
Fixpoint as_json (v : dbval) : option pyval :=
  match v with
  | DNone => Some PNone
  | DBool b => Some (PBool b)
  | DDecimal _ _ => None
  | DStr s => Some (PStr s)
  | DList l => PList <$> mapM as_json l
  | DDict d => PDict <$> mapM (fun '(k, x) => pair k <$> as_json x) d
  end.

(** What [json.dumps(v)] goes through before it returns a text: the
    encoder has no case for a Decimal and raises on the first it meets;
    every other value here is a JSON value, written by [json_dumps]. *)
Definition json_value (v : dbval) : exn + pyval :=
  match as_json v with
  | Some j => inr j
  | None => inl (TypeError "Object of type Decimal is not JSON serializable")
  end.

(** [f] on every element, up to the first that raises. *)
Definition try_map {A B : Type} (f : A -> exn + B) : list A -> exn + list B :=
  fix go (l : list A) : exn + list B :=
    match l with
    | [] => inr []
    | x :: l' =>
        match f x with
        | inl e => inl e
        | inr y =>
            match go l' with
            | inl e => inl e
            | inr ys => inr (y :: ys)
            end
        end
    end.

(** One attribute on its way into the table: DynamoDB refuses an empty
    attribute name. *)
Definition entry_to_db (f : pyval -> exn + dbval) (kv : string * pyval)
  : exn + (string * dbval) :=
  match fst kv with
  | EmptyString => inl (ClientError "an attribute name is empty")
  | _ =>
      match f (snd kv) with
      | inl e => inl e
      | inr y => inr (fst kv, y)
      end
  end.

(** What becomes of a value on its way into the table.  boto3's
    [TypeSerializer] turns an [int] into a number of at most 38 digits,
    refuses a [float] and lets the rest through ([bool] is tested before
    [int]).  For an integer of more than 38 digits the decimal context of
    boto3 traps; which signal it raises depends on the digits dropped, and
    no theorem depends on it. *)
Fixpoint to_db (v : pyval) : exn + dbval :=
  match v with
  | PNone => inr DNone
  | PBool b => inr (DBool b)
  | PInt n =>
      if Z.abs n <? 10 ^ 38 then inr (DDecimal n 0)
      else inl (Exc "Inexact" "[<class 'decimal.Inexact'>, <class 'decimal.Rounded'>]")
  | PFloat _ => inl (TypeError "Float types are not supported. Use Decimal types instead.")
  | PStr s => inr (DStr s)
  | PList l =>
      match try_map to_db l with
      | inl e => inl e
      | inr l' => inr (DList l')
      end
  | PDict d =>
      match try_map (entry_to_db to_db) d with
      | inl e => inl e
      | inr d' => inr (DDict d')
      end
  end.

(** The attributes of an item, or of [ExpressionAttributeValues]. *)
Definition to_db_dict (d : dict) : exn + dbdict := try_map (entry_to_db to_db) d.


(** ** Requests and responses *)

(** The API Gateway proxy event, as far as the handler reads it.
    [httpMethod] is [None] when the event has no such key; the other two
    are [None] when the key is absent or holds [None]. *)
Record Event : Type := mkEvent {
  httpMethod : option string;
  event_body : option string;
  queryStringParameters : option (gmap string string);
}.

Record Response : Type := mkResponse {
  statusCode : Z;
  headers : list (string * string);
  body : string;
}.

Definition cors_headers : list (string * string) :=
  [ ("Content-Type", "application/json");
    ("Access-Control-Allow-Origin", "*");
    ("Access-Control-Allow-Headers", "Content-Type,Authorization");
    ("Access-Control-Allow-Methods", "GET,POST,PUT,DELETE,OPTIONS") ].

(** [_resp(status, body=None)], on the values [json.dumps] has a case for.
    Where the handler passes what came back from the table, [json_value]
    stands before it for the [TypeError] of [json.dumps]. *)
Definition _resp (status : Z) (body : pyval) : Response :=
  {| statusCode := status;
     headers := cors_headers;
     body := match body with
             | PNone => EmptyString
             | _ => json_dumps body
             end |}.

(** [{"error": msg}] *)
Definition error_body (msg : string) : pyval := PDict [("error", PStr msg)].

(** ** Programs over the table *)

(** The calls the handler makes on [table], with their keyword arguments. *)
Inductive call : Type :=
| put_item (Item : pyval)
| get_item (Key : dict)
| update_item (Key : dict) (UpdateExpression : string)
    (ExpressionAttributeNames ExpressionAttributeValues : dict)
    (ReturnValues : string)
| delete_item (Key : dict).

(** What a call comes back with: the response dict, its values as the
    table hands them back, or an exception. *)
Abbreviation outcome := (exn + dbdict)%type.

(** A computation that returns, raises, or calls the table and goes on with
    the outcome. *)
Inductive prog (A : Type) : Type :=
| Ret (a : A)
| Raise (e : exn)
| Call (c : call) (k : outcome -> prog A).

Arguments Ret {A} a.
Arguments Raise {A} e.
Arguments Call {A} c k.

Fixpoint bind {A B : Type} (p : prog A) (f : A -> prog B) : prog B :=
  match p with
  | Ret a => f a
  | Raise e => Raise e
  | Call c k => Call c (fun o => bind (k o) f)
  end.

(** [try: p  except Exception as e: h e] *)
Fixpoint try_except {A : Type} (p : prog A) (h : exn -> prog A) : prog A :=
  match p with
  | Ret a => Ret a
  | Raise e => h e
  | Call c k => Call c (fun o => try_except (k o) h)
  end.

(** A pure Python operation that may raise. *)
Definition lift {A : Type} (r : exn + A) : prog A :=
  match r with
  | inl e => Raise e
  | inr a => Ret a
  end.

(** [table.<call>(...)] *)
Definition table (c : call) : prog dbdict := Call c lift.

Declare Scope prog_scope.
Delimit Scope prog_scope with prog.
Notation "x <- p ;; q" := (bind p (fun x => q))
  (at level 100, p at next level, right associativity) : prog_scope.
Notation "p ;; q" := (bind p (fun _ => q))
  (at level 100, right associativity) : prog_scope.

(** The first call a program makes, if it makes one. *)
Definition first_call {A : Type} (p : prog A) : option call :=
  match p with
  | Call c _ => Some c
  | _ => None
  end.

(** Running a program against an implementation [exec] of the table, from
    state [s]. *)
Fixpoint run {S A : Type} (exec : call -> S -> outcome * S) (p : prog A) (s : S)
  : (exn + A) * S :=
  match p with
  | Ret a => (inr a, s)
  | Raise e => (inl e, s)
  | Call c k => let '(o, s') := exec c s in run exec (k o) s'
  end.

(** The calls made along that run. *)
Fixpoint trace {S A : Type} (exec : call -> S -> outcome * S) (p : prog A) (s : S)
  : list call :=
  match p with
  | Call c k => let '(o, s') := exec c s in c :: trace exec (k o) s'
  | _ => []
  end.

(** ** The handler *)

(** [x or y] on an optional [str]. *)
Definition str_or (x : option string) (y : string) : string :=
  match x with
  | Some (String c s) => String c s
  | _ => y
  end.

(** [not sid] on an optional [str]; where it is false, [sid] is a non-empty
    [str] and [default EmptyString sid] is that string. *)
Definition not_str (sid : option string) : bool :=
  match sid with
  | Some (String _ _) => false
  | _ => true
  end.

(** The body of the [for k, v in payload.items()] loop of the PUT branch,
    on the state [(expr, names, values)]. *)
Definition put_step (acc : list string * dict * dict) (kv : string * pyval)
  : list string * dict * dict :=
  let '(expr, names, values) := acc in
  let '(k, v) := kv in
  if String.eqb k "student_id" then (expr, names, values)
  else ((expr ++ ["#_" +:+ k +:+ " = :" +:+ k])%list,
        dict_set ("#_" +:+ k) (PStr k) names,
        dict_set (":" +:+ k) v values).

Definition put_loop (items : dict) : list string * dict * dict :=
  fold_left put_step items ([], [], []).

Section Handler.

(** [json.loads]: Python's decoder, from a text to a value or a
    [JSONDecodeError]. *)
Variable json_loads : string -> exn + pyval.

Local Open Scope prog_scope.

(** The [try] block of [lambda_handler]. *)
Definition dispatch (event : Event) (method : string) : prog Response :=
  if String.eqb method "POST" then
    payload <- lift (json_loads (str_or (event_body event) "{}")) ;;
    present <- lift (py_in "student_id" payload) ;;
    if negb present then
      Ret (_resp 400 (error_body "student_id is required"))
    else
      table (put_item payload) ;;
      Ret (_resp 200 (PDict [("message", PStr "Student record created");
                             ("student", payload)]))
  else if String.eqb method "GET" then
    let params := default ∅ (queryStringParameters event) in
    let sid := params !! "student_id" in
    if not_str sid then
      Ret (_resp 400 (error_body "student_id is required"))
    else
      let sid := default EmptyString sid in
      res <- table (get_item [("student_id", PStr sid)]) ;;
      let item := default DNone (dict_get "Item" res) in
      if negb (db_truthy item) then
        Ret (_resp 404 (error_body "not found"))
      else
        record <- lift (json_value item) ;;
        Ret (_resp 200 record)
  else if String.eqb method "PUT" then
    payload <- lift (json_loads (str_or (event_body event) "{}")) ;;
    sid <- lift (py_get payload "student_id") ;;
    if negb (truthy sid) then
      Ret (_resp 400 (error_body "student_id is required"))
    else
      items <- lift (py_items payload) ;;
      let '(expr, names, values) := put_loop items in
      if negb (match expr with [] => false | _ => true end) then
        Ret (_resp 400 (error_body "no fields to update"))
      else
        res <- table (update_item [("student_id", sid)]
                        ("SET " +:+ String.concat ", " expr)
                        names values "ALL_NEW") ;;
        attributes <- lift (dict_getitem res "Attributes") ;;
        student <- lift (json_value attributes) ;;
        Ret (_resp 200 (PDict [("message", PStr "Student record updated");
                               ("student", student)]))
  else if String.eqb method "DELETE" then
    let params := default ∅ (queryStringParameters event) in
    let sid := params !! "student_id" in
    if not_str sid then
      Ret (_resp 400 (error_body "student_id is required"))
    else
      let sid := default EmptyString sid in
      table (delete_item [("student_id", PStr sid)]) ;;
      Ret (_resp 200 (PDict [("message", PStr ("Student " +:+ sid +:+ " deleted"))]))
  else
    Ret (_resp 405 (error_body "method not allowed")).

(** [lambda_handler(event, context)]; [context] is never read. *)
Definition lambda_handler (event : Event) : prog Response :=
  let method := default "GET" (httpMethod event) in
  if String.eqb method "OPTIONS" then
    Ret (_resp 200 (PDict []))
  else
    try_except (dispatch event method)
               (fun e => Ret (_resp 500 (error_body (str e)))).

End Handler.

(** ** The table *)

(** The characters of a placeholder name: letters, digits and underscore. *)
Definition is_token_char (c : ascii) : bool :=
  let n := N_of_ascii c in
  ((48 <=? n) && (n <=? 57) || (65 <=? n) && (n <=? 90)
   || (97 <=? n) && (n <=? 122) || (n =? 95))%N.

(** The longest prefix of token characters, and what follows it. *)
Fixpoint take_token (s : string) : string * string :=
  match s with
  | String c s' =>
      if is_token_char c then
        let '(t, r) := take_token s' in (String c t, r)
      else (EmptyString, s)
  | EmptyString => (EmptyString, EmptyString)
  end.

Fixpoint skip_spaces (s : string) : string :=
  match s with
  | String c s' => if Ascii.eqb c " " then skip_spaces s' else s
  | EmptyString => EmptyString
  end.

(** A placeholder: the sigil ([#] for a name, [:] for a value) and a
    non-empty token. *)
Definition placeholder (sigil : ascii) (s : string) : option (string * string) :=
  match s with
  | String c s' =>
      if Ascii.eqb c sigil then
        match take_token s' with
        | (EmptyString, _) => None
        | (t, r) => Some (String sigil t, r)
        end
      else None
  | EmptyString => None
  end.

(** One action [#name = :value]. *)
Definition set_action (s : string) : option ((string * string) * string) :=
  match placeholder "#" (skip_spaces s) with
  | Some (n, r) =>
      match skip_spaces r with
      | String c r' =>
          if Ascii.eqb c "=" then
            match placeholder ":" (skip_spaces r') with
            | Some (v, r'') => Some ((n, v), skip_spaces r'')
            | None => None
            end
          else None
      | EmptyString => None
      end
  | None => None
  end.

(** Actions separated by commas. *)
Fixpoint set_actions (fuel : nat) (s : string) : option (list (string * string)) :=
  match fuel with
  | O => None
  | S fuel' =>
      match set_action s with
      | Some (a, EmptyString) => Some [a]
      | Some (a, String c r) =>
          if Ascii.eqb c "," then
            match set_actions fuel' r with
            | Some l => Some (a :: l)
            | None => None
            end
          else None
      | None => None
      end
  end.

(** [SET action, action, ...] *)
Definition parse_update_expression (e : string) : option (list (string * string)) :=
  match e with
  | String "S" (String "E" (String "T" (String " " r))) =>
      set_actions (String.length e) r
  | _ => None
  end.

(** The attribute and the value an action stands for. *)
Definition resolve (names : dict) (values : dbdict) (a : string * string)
  : option (string * dbval) :=
  match dict_get (fst a) names, dict_get (snd a) values with
  | Some (PStr k), Some v => Some (k, v)
  | _, _ => None
  end.

Definition apply_sets {V : Type} (sets item : list (string * V)) : list (string * V) :=
  fold_left (fun r kv => dict_set (fst kv) (snd kv) r) sets item.

(** A key of the table: a non-empty [str]. *)
Definition valid_key (v : pyval) : option string :=
  match v with
  | PStr (String c s) => Some (String c s)
  | _ => None
  end.

(** The key a [Key] argument designates. *)
Definition key_of (Key : dict) : option string :=
  match Key with
  | [(a, v)] => if String.eqb a "student_id" then valid_key v else None
  | _ => None
  end.

(** Modelled from the spec: the key-value store behind [table], which is
    not part of the repository; lines 4-6 build it as a boto3 DynamoDB
    [Table].
    From the spec: section 6 gives the store four operations, put-by-key
    with full overwrite, get-by-key, attribute-level update-by-key returning
    the post-update snapshot, and delete-by-key; section 3 keys the records
    by [student_id], a string, never empty in a stored record; section 4.1
    has update create the record when the key is new and delete say nothing
    when it is.
    From the store the source names, where the spec is silent: what is
    written goes through [to_db], so that numbers come back as Decimal and a
    float is refused; the update expression is read in DynamoDB's syntax for
    SET actions over placeholders; a record that an update creates holds its
    key attribute (section 9 of the spec takes it to lack it; no theorem
    below is about such a record's [student_id]).
    Not modelled: the limits on size and nesting, the order in which
    attributes come back (here the order they were written in), and the
    [ResponseMetadata] of a reply.  The texts of the exceptions the store
    raises are stand-ins.  A call the store refuses raises and changes
    nothing. *)
Definition table_exec (c : call) (t : gmap string dbdict) : outcome * gmap string dbdict :=
  match c with
  | put_item (PDict item) =>
      match to_db_dict item with
      | inr attributes =>
          match dict_get "student_id" item ≫= valid_key with
          | Some s => (inr [], <[s := attributes]> t)
          | None => (inl (ClientError "the key does not match the schema"), t)
          end
      | inl e => (inl e, t)
      end
  | put_item _ => (inl (ClientError "Item must be a dict"), t)
  | get_item Key =>
      match key_of Key with
      | Some s =>
          (inr match t !! s with
               | Some item => [("Item", DDict item)]
               | None => []
               end, t)
      | None => (inl (ClientError "the key does not match the schema"), t)
      end
  | update_item Key expression names values return_values =>
      match to_db_dict values with
      | inr values =>
          match key_of Key, parse_update_expression expression with
          | Some s, Some actions =>
              match mapM (resolve names values) actions with
              | Some sets =>
                  if existsb (String.eqb "student_id") (keys sets) then
                    (inl (ClientError "cannot update the key attribute"), t)
                  else
                    let item := apply_sets sets (default [("student_id", DStr s)] (t !! s)) in
                    (inr (if String.eqb return_values "ALL_NEW"
                          then [("Attributes", DDict item)] else []),
                     <[s := item]> t)
              | None => (inl (ClientError "undefined placeholder"), t)
              end
          | None, _ => (inl (ClientError "the key does not match the schema"), t)
          | _, None => (inl (ClientError "invalid UpdateExpression"), t)
          end
      | inl e => (inl e, t)
      end
  | delete_item Key =>
      match key_of Key with
      | Some s => (inr [], delete s t)
      | None => (inl (ClientError "the key does not match the schema"), t)
      end
  end.

(** One request against the table. *)
Definition invoke (json_loads : string -> exn + pyval) (event : Event)
    (t : gmap string dbdict) : (exn + Response) * gmap string dbdict :=
  run table_exec (lambda_handler json_loads event) t.

(** A table out of reach: every call raises [e]. *)
Definition failing (e : exn) (c : call) (s : unit) : outcome * unit := (inl e, s).

(** ** A decoder to run the handler with

    The handler is stated over any [json_loads].  [Decoder.loads] is a
    decoder to run the examples with, not [json.loads]: it reads the JSON
    texts that have no escape, no fraction and no exponent, and refuses the
    others; the messages of its exceptions are its own. *)
Module Decoder.

Definition JSONDecodeError (msg : string) : exn := Exc "JSONDecodeError" msg.

Definition is_ws (c : ascii) : bool :=
  let n := N_of_ascii c in ((n =? 32) || (n =? 9) || (n =? 10) || (n =? 13))%N.

Definition is_digit (c : ascii) : bool :=
  let n := N_of_ascii c in ((48 <=? n) && (n <=? 57))%N.

Fixpoint skip_ws (s : string) : string :=
  match s with
  | String c s' => if is_ws c then skip_ws s' else s
  | EmptyString => EmptyString
  end.

Fixpoint strip_prefix (p s : string) : option string :=
  match p, s with
  | EmptyString, _ => Some s
  | String a p', String b s' => if Ascii.eqb a b then strip_prefix p' s' else None
  | _, _ => None
  end.

(** The characters of a string up to its closing quote. *)
Fixpoint string_chars (s : string) : option (string * string) :=
  match s with
  | EmptyString => None
  | String c s' =>
      let n := N_of_ascii c in
      if (n =? 34)%N then Some (EmptyString, s')
      else if ((n =? 92) || (n <? 32))%N then None
      else match string_chars s' with
           | Some (x, r) => Some (String c x, r)
           | None => None
           end
  end.

Fixpoint digits (acc : Z) (s : string) : Z * string :=
  match s with
  | String c s' =>
      if is_digit c then digits (10 * acc + Z.of_N (N_of_ascii c - 48)) s'
      else (acc, s)
  | EmptyString => (acc, EmptyString)
  end.

(** An integer literal: no leading zero, no fraction, no exponent. *)
Definition integer (s : string) : option (Z * string) :=
  let '(neg, s1) := match s with
                    | String c s' => if Ascii.eqb c "-" then (true, s') else (false, s)
                    | EmptyString => (false, s)
                    end in
  match s1 with
  | String c s' =>
      if is_digit c then
        let '(n, r) := if Ascii.eqb c "0" then (0, s') else digits 0 s1 in
        match r with
        | String d _ =>
            if is_digit d || Ascii.eqb d "." || Ascii.eqb d "e" || Ascii.eqb d "E"
            then None else Some (if neg then - n else n, r)
        | EmptyString => Some (if neg then - n else n, r)
        end
      else None
  | EmptyString => None
  end.

Fixpoint value (fuel : nat) (s : string) : option (pyval * string) :=
  match fuel with
  | O => None
  | S fuel' =>
      let elements :=
        fix elements (n : nat) (acc : list pyval) (s : string) {struct n}
          : option (pyval * string) :=
          match n with
          | O => None
          | S n' =>
              match value fuel' s with
              | Some (v, r) =>
                  match skip_ws r with
                  | String c r' =>
                      if Ascii.eqb c "," then elements n' (acc ++ [v])%list r'
                      else if Ascii.eqb c "]" then Some (PList (acc ++ [v])%list, r')
                      else None
                  | EmptyString => None
                  end
              | None => None
              end
          end in
      let members :=
        fix members (n : nat) (acc : dict) (s : string) {struct n}
          : option (pyval * string) :=
          match n with
          | O => None
          | S n' =>
              match strip_prefix dquote (skip_ws s) with
              | Some r =>
                  match string_chars r with
                  | Some (k, r1) =>
                      match strip_prefix ":" (skip_ws r1) with
                      | Some r2 =>
                          match value fuel' r2 with
                          | Some (v, r3) =>
                              match skip_ws r3 with
                              | String c r4 =>
                                  if Ascii.eqb c "," then members n' (dict_set k v acc) r4
                                  else if Ascii.eqb c "}" then Some (PDict (dict_set k v acc), r4)
                                  else None
                              | EmptyString => None
                              end
                          | None => None
                          end
                      | None => None
                      end
                  | None => None
                  end
              | None => None
              end
          end in
      match skip_ws s with
      | String c r =>
          if Ascii.eqb c "{" then
            match strip_prefix "}" (skip_ws r) with
            | Some r' => Some (PDict [], r')
            | None => members fuel' [] r
            end
          else if Ascii.eqb c "[" then
            match strip_prefix "]" (skip_ws r) with
            | Some r' => Some (PList [], r')
            | None => elements fuel' [] r
            end
          else if (N_of_ascii c =? 34)%N then
            match string_chars r with
            | Some (x, r') => Some (PStr x, r')
            | None => None
            end
          else
            match strip_prefix "null" (String c r), strip_prefix "true" (String c r),
                  strip_prefix "false" (String c r) with
            | Some r', _, _ => Some (PNone, r')
            | _, Some r', _ => Some (PBool true, r')
            | _, _, Some r' => Some (PBool false, r')
            | _, _, _ =>
                match integer (String c r) with
                | Some (n, r') => Some (PInt n, r')
                | None => None
                end
            end
      | EmptyString => None
      end
  end.

Definition loads (s : string) : exn + pyval :=
  match value (S (String.length s)) s with
  | Some (v, r) =>
      match skip_ws r with
      | EmptyString => inr v
      | _ => inl (JSONDecodeError "Extra data")
      end
  | None => inl (JSONDecodeError "Expecting value")
  end.

End Decoder.

(** ** Reading an event *)

Definition method_of (event : Event) : string := default "GET" (httpMethod event).

Definition params_of (event : Event) : gmap string string :=
  default ∅ (queryStringParameters event).

Definition text_of (event : Event) : string := str_or (event_body event) "{}".

(** The methods with a branch of their own. *)
Definition known_methods : list string := ["GET"; "POST"; "PUT"; "DELETE"; "OPTIONS"].

(** A request that lacks its required input: no [student_id] in the body of
    a POST or a PUT, none in the query of a GET or a DELETE, or a PUT body
    holding [student_id] and nothing else. *)
Inductive missing_input (json_loads : string -> exn + pyval) (event : Event) : Prop :=
| post_without_id (d : dict) :
    method_of event = "POST" ->
    json_loads (text_of event) = inr (PDict d) ->
    dict_get "student_id" d = None ->
    missing_input json_loads event
| get_without_id :
    method_of event = "GET" ->
    params_of event !! "student_id" = None ->
    missing_input json_loads event
| delete_without_id :
    method_of event = "DELETE" ->
    params_of event !! "student_id" = None ->
    missing_input json_loads event
| put_without_id (d : dict) :
    method_of event = "PUT" ->
    json_loads (text_of event) = inr (PDict d) ->
    dict_get "student_id" d = None ->
    missing_input json_loads event
| put_only_id (v : pyval) :
    method_of event = "PUT" ->
    json_loads (text_of event) = inr (PDict [("student_id", v)]) ->
    missing_input json_loads event.

(** A call of the program is not guarded: when it raises, so does the
    program. *)
Definition propagates {A : Type} (p : prog A) : Prop :=
  match p with
  | Call _ k => forall e, k (inl e) = Raise e
  | _ => True
  end.

(** The fields a PUT body asks to set. *)
Definition non_key_fields (d : dict) : dict :=
  filter (fun kv => fst kv <> "student_id") d.

Fixpoint all_token_chars (k : string) : bool :=
  match k with
  | EmptyString => true
  | String c k' => is_token_char c && all_token_chars k'
  end.

(** A field name that makes a placeholder: a non-empty token. *)
Definition is_token (k : string) : bool :=
  match k with
  | EmptyString => false
  | _ => all_token_chars k
  end.

(** The text and the placeholders the PUT branch makes for field [k]. *)
Definition action_text (k : string) : string := "#_" +:+ k +:+ " = :" +:+ k.
Definition action_of (k : string) : string * string := ("#_" +:+ k, ":" +:+ k).

(** What may follow a token: the end, or a character no token holds. *)
Definition ends_token (rest : string) : Prop :=
  match rest with
  | EmptyString => True
  | String c _ => is_token_char c = false
  end.

(** No record of the table is filed under the empty key, and none is without
    attributes. *)
Definition table_ok (t : gmap string dbdict) : Prop :=
  map_Forall (fun s item => s <> EmptyString /\ item <> []) t.

(** ** Requests to run *)

Module Scenario.

Definition ann : dict := [("student_id", PStr "s1"); ("name", PStr "Ann")].
Definition grade : dict := [("student_id", PStr "s1"); ("grade", PStr "A")].
Definition ann_graded : dict :=
  [("student_id", PStr "s1"); ("name", PStr "Ann"); ("grade", PStr "A")].
Definition aged : dict := [("student_id", PStr "s1"); ("age", PInt 20)].

(** The same records as the table holds them. *)
Definition ann_item : dbdict := [("student_id", DStr "s1"); ("name", DStr "Ann")].
Definition ann_graded_item : dbdict :=
  [("student_id", DStr "s1"); ("name", DStr "Ann"); ("grade", DStr "A")].
Definition aged_item : dbdict := [("student_id", DStr "s1"); ("age", DDecimal 20 0)].

Definition request (method : string) (payload : pyval) : Event :=
  mkEvent (Some method) (Some (json_dumps payload)) None.

Definition query (method : string) (sid : string) : Event :=
  mkEvent (Some method) None (Some {[ "student_id" := sid ]}).

Definition with_ann : gmap string dbdict := {[ "s1" := ann_item ]}.

End Scenario.

(** ** Programs as a whole *)

(** Every value the program can return satisfies [P], whatever the table
    answers. *)
Fixpoint returns {A : Type} (P : A -> Prop) (p : prog A) : Prop :=
  match p with
  | Ret a => P a
  | Raise _ => True
  | Call _ k => forall o, returns P (k o)
  end.

(** Every call the program can make satisfies [Q], whatever the table
    answers. *)
Fixpoint calls {A : Type} (Q : call -> Prop) (p : prog A) : Prop :=
  match p with
  | Call c k => Q c /\ forall o, calls Q (k o)
  | _ => True
  end.

(** The run ended with a response, and the response satisfies [P]. *)
Definition answered {S : Type} (P : Response -> Prop) (x : (exn + Response) * S) : Prop :=
  match fst x with
  | inr r => P r
  | inl _ => False
  end.

(** The status codes the handler writes. *)
Definition statuses : list Z := [200; 400; 404; 405; 500].

(** The methods that reach the [try] block with a branch of their own. *)
Definition crud_methods : list string := ["POST"; "GET"; "PUT"; "DELETE"].

(** The arguments [_resp] is called with, by method: one line per [return]
    of [lambda_handler]. *)
Inductive shape (method : string) : Z -> pyval -> Prop :=
| shape_preflight :
    method = "OPTIONS" -> shape method 200 (PDict [])
| shape_created (payload : pyval) :
    method = "POST" ->
    shape method 200 (PDict [("message", PStr "Student record created");
                             ("student", payload)])
| shape_found (item : dbval) (record : pyval) :
    method = "GET" -> db_truthy item = true -> json_value item = inr record ->
    shape method 200 record
| shape_updated (attributes : pyval) :
    method = "PUT" ->
    shape method 200 (PDict [("message", PStr "Student record updated");
                             ("student", attributes)])
| shape_deleted (sid : string) :
    method = "DELETE" ->
    shape method 200 (PDict [("message", PStr ("Student " +:+ sid +:+ " deleted"))])
| shape_required :
    method ∈ crud_methods -> shape method 400 (error_body "student_id is required")
| shape_no_fields :
    method = "PUT" -> shape method 400 (error_body "no fields to update")
| shape_not_found :
    method = "GET" -> shape method 404 (error_body "not found")
| shape_not_allowed :
    method ∉ known_methods -> shape method 405 (error_body "method not allowed")
| shape_error (e : exn) :
    shape method 500 (error_body (str e)).

(** The call that belongs to a method. *)
Definition own_call (method : string) (c : call) : Prop :=
  match c with
  | put_item _ => method = "POST"
  | get_item _ => method = "GET"
  | update_item _ _ _ _ _ => method = "PUT"
  | delete_item _ => method = "DELETE"
  end.

(** [None], a [bool], an [int] or a [float]: the values [in] refuses. *)
Definition scalar (v : pyval) : bool :=
  match v with
  | PNone | PBool _ | PInt _ | PFloat _ => true
  | _ => false
  end.

Definition is_dict (v : pyval) : bool :=
  match v with
  | PDict _ => true
  | _ => false
  end.

(** What the PUT branch answers to the outcome of [update_item]. *)
Definition put_answer (o : outcome) : Response :=
  match o with
  | inl e => _resp 500 (error_body (str e))
  | inr res =>
      match dict_get "Attributes" res with
      | Some attributes =>
          match json_value attributes with
          | inr student =>
              _resp 200 (PDict [("message", PStr "Student record updated");
                                ("student", student)])
          | inl e => _resp 500 (error_body (str e))
          end
      | None => _resp 500 (error_body (str (KeyError "Attributes")))
      end
  end.

(** What the GET branch answers to the outcome of [get_item]. *)
Definition get_answer (o : outcome) : Response :=
  match o with
  | inl e => _resp 500 (error_body (str e))
  | inr res =>
      let item := default DNone (dict_get "Item" res) in
      if db_truthy item then
        match json_value item with
        | inr record => _resp 200 record
        | inl e => _resp 500 (error_body (str e))
        end
      else _resp 404 (error_body "not found")
  end.

(** What the POST branch answers to the outcome of [put_item]. *)
Definition post_answer (payload : pyval) (o : outcome) : Response :=
  match o with
  | inl e => _resp 500 (error_body (str e))
  | inr _ => _resp 200 (PDict [("message", PStr "Student record created");
                               ("student", payload)])
  end.

(** ** Lemmas on strings, dicts and the table *)

(** *** Dicts *)

Lemma dict_get_set_eq {V : Type} (k : string) (v : V) (d : list (string * V)) :
  dict_get k (dict_set k v d) = Some v.
Proof.
  induction d as [|[k' v'] d IH]; simpl.
  - rewrite String.eqb_refl. reflexivity.
  - destruct (String.eqb_spec k' k) as [->|Hne]; simpl.
    + rewrite String.eqb_refl. reflexivity.
    + apply String.eqb_neq in Hne. rewrite Hne. exact IH.
Qed.

Lemma dict_get_set_ne {V : Type} (k k' : string) (v : V) (d : list (string * V)) :
  k <> k' -> dict_get k' (dict_set k v d) = dict_get k' d.
Proof.
  intros Hne. induction d as [|[k0 v0] d IH]; simpl.
  - apply String.eqb_neq in Hne. rewrite Hne. reflexivity.
  - destruct (String.eqb_spec k0 k) as [->|Hk]; simpl.
    + apply String.eqb_neq in Hne. rewrite Hne. reflexivity.
    + rewrite IH. reflexivity.
Qed.

Lemma dict_get_None {V : Type} (k : string) (d : list (string * V)) :
  dict_get k d = None <-> k ∉ keys d.
Proof.
  unfold keys. induction d as [|[k' v'] d IH]; simpl.
  - split; [intros _; apply not_elem_of_nil | reflexivity].
  - rewrite not_elem_of_cons.
    destruct (String.eqb_spec k' k) as [->|Hk].
    + split; [discriminate | intros [H _]; congruence].
    + rewrite IH. split; [intros H; split; [congruence | exact H] | intros [_ H]; exact H].
Qed.

Lemma dict_get_elem {V : Type} (k : string) (v : V) (d : list (string * V)) :
  NoDup (keys d) -> (k, v) ∈ d -> dict_get k d = Some v.
Proof.
  unfold keys. induction d as [|[k' v'] d IH]; simpl; intros Hnd Hin.
  - inversion Hin.
  - apply NoDup_cons in Hnd as [Hk Hnd].
    apply elem_of_cons in Hin as [[= -> ->] | Hin].
    + rewrite String.eqb_refl. reflexivity.
    + destruct (String.eqb_spec k' k) as [->|_]; [|auto].
      exfalso. apply Hk. apply (list_elem_of_fmap_2 fst _ _ Hin).
Qed.

Lemma dict_set_fresh {V : Type} (k : string) (v : V) (d : list (string * V)) :
  k ∉ keys d -> dict_set k v d = (d ++ [(k, v)])%list.
Proof.
  unfold keys. induction d as [|[k' v'] d IH]; simpl; intros Hk; [reflexivity|].
  apply not_elem_of_cons in Hk as [Hne Hk].
  destruct (String.eqb_spec k' k) as [->|_]; [congruence|]. rewrite IH; auto.
Qed.

(** Setting fresh keys one by one appends them. *)
Lemma fold_dict_set_fresh {A V : Type} (key : A -> string) (val : A -> V)
    (l : list A) (acc : list (string * V)) :
  NoDup (keys acc ++ (key <$> l)) ->
  fold_left (fun n a => dict_set (key a) (val a) n) l acc
  = (acc ++ ((fun a => (key a, val a)) <$> l))%list.
Proof.
  revert acc. induction l as [|a l IH]; intros acc Hnd; simpl.
  - rewrite app_nil_r. reflexivity.
  - rewrite dict_set_fresh.
    + rewrite IH.
      * rewrite <- app_assoc. reflexivity.
      * unfold keys in *. rewrite fmap_app. simpl. rewrite <- app_assoc. exact Hnd.
    + apply NoDup_app in Hnd as (_ & Hd & _). intros Hin.
      apply (Hd _ Hin). simpl. apply elem_of_cons. left. reflexivity.
Qed.

Lemma apply_sets_other {V : Type} (sets item : list (string * V)) (k : string) :
  k ∉ keys sets -> dict_get k (apply_sets sets item) = dict_get k item.
Proof.
  unfold apply_sets, keys. revert item.
  induction sets as [|[k' v'] sets IH]; simpl; intros item Hk; [reflexivity|].
  apply not_elem_of_cons in Hk as [Hne Hk].
  rewrite IH by exact Hk. apply dict_get_set_ne. congruence.
Qed.

Lemma apply_sets_set {V : Type} (sets item : list (string * V)) (k : string) (v : V) :
  NoDup (keys sets) -> (k, v) ∈ sets -> dict_get k (apply_sets sets item) = Some v.
Proof.
  unfold keys. revert item.
  induction sets as [|[k' v'] sets IH]; simpl; intros item Hnd Hin.
  - inversion Hin.
  - apply NoDup_cons in Hnd as [Hk Hnd].
    apply elem_of_cons in Hin as [[= -> ->] | Hin].
    + change (dict_get k' (apply_sets sets (dict_set k' v' item)) = Some v').
      rewrite apply_sets_other by exact Hk. apply dict_get_set_eq.
    + apply (IH _ Hnd Hin).
Qed.

(** *** The loop of the PUT branch *)

Lemma put_loop_acc (d : dict) (expr : list string) (names values : dict) :
  fold_left put_step d (expr, names, values)
  = ((expr ++ ((fun kv => action_text (fst kv)) <$> non_key_fields d))%list,
     fold_left (fun n kv => dict_set ("#_" +:+ fst kv) (PStr (fst kv)) n)
               (non_key_fields d) names,
     fold_left (fun n kv => dict_set (":" +:+ fst kv) (snd kv) n)
               (non_key_fields d) values).
Proof.
  unfold non_key_fields. revert expr names values.
  induction d as [|[k v] d IH]; intros expr names values.
  - simpl. rewrite app_nil_r. reflexivity.
  - rewrite filter_cons. cbn [fold_left put_step fst].
    destruct (String.eqb_spec k "student_id") as [->|Hk].
    + rewrite decide_False by auto. apply IH.
    + rewrite decide_True by auto. rewrite IH. simpl.
      rewrite <- app_assoc. reflexivity.
Qed.

Lemma non_key_fields_NoDup (d : dict) :
  NoDup (keys d) -> NoDup (keys (non_key_fields d)).
Proof.
  unfold keys, non_key_fields. induction d as [|[k v] d IH]; intros Hnd.
  - constructor.
  - rewrite fmap_cons in Hnd. apply NoDup_cons in Hnd as [Hk Hnd]. rewrite filter_cons.
    case_decide; [|auto]. rewrite fmap_cons. apply NoDup_cons. split; [|auto].
    intros Hin. apply Hk. apply list_elem_of_fmap in Hin as (kv & -> & Hin).
    apply list_elem_of_filter in Hin as [_ Hin]. apply (list_elem_of_fmap_2 fst _ _ Hin).
Qed.

Lemma non_key_fields_keys (d : dict) :
  existsb (String.eqb "student_id") (keys (non_key_fields d)) = false.
Proof.
  unfold keys, non_key_fields. induction d as [|[k v] d IH]; [reflexivity|].
  rewrite filter_cons. case_decide as Hk; [|exact IH]. rewrite fmap_cons.
  cbn [existsb fst] in *. rewrite IH, orb_false_r. apply String.eqb_neq. congruence.
Qed.

(** *** Strings *)

Lemma append_cons (x : ascii) (a b : string) : String x a +:+ b = String x (a +:+ b).
Proof. reflexivity. Qed.

Lemma append_empty_l (b : string) : EmptyString +:+ b = b.
Proof. reflexivity. Qed.

Ltac push_append := repeat (rewrite append_cons || rewrite append_empty_l).

Lemma append_assoc (a b c : string) : (a +:+ b) +:+ c = a +:+ (b +:+ c).
Proof. induction a as [|x a IH]; push_append; [reflexivity | rewrite IH; reflexivity]. Qed.

Lemma append_empty_r (a : string) : a +:+ EmptyString = a.
Proof. induction a as [|x a IH]; push_append; [reflexivity | rewrite IH; reflexivity]. Qed.

Lemma length_append (a b : string) :
  String.length (a +:+ b) = (String.length a + String.length b)%nat.
Proof.
  induction a as [|x a IH]; push_append; [reflexivity|].
  cbn [String.length]. rewrite IH. reflexivity.
Qed.

Lemma append_inj (p a b : string) : p +:+ a = p +:+ b -> a = b.
Proof. induction p as [|x p IH]; push_append; [auto | intros [= H]; auto]. Qed.

(** *** Reading back the update expression *)

Lemma take_token_app (k rest : string) :
  all_token_chars k = true -> ends_token rest -> take_token (k +:+ rest) = (k, rest).
Proof.
  induction k as [|c k IH]; simpl.
  - intros _. destruct rest as [|c r]; simpl; [reflexivity | intros ->; reflexivity].
  - intros [Hc Hk]%andb_true_iff Hr. rewrite Hc, (IH Hk Hr). reflexivity.
Qed.

Lemma set_action_text (k rest : string) :
  is_token k = true ->
  rest = EmptyString \/ (exists r, rest = String "," r) ->
  set_action (action_text k +:+ rest) = Some (action_of k, rest).
Proof.
  intros Hk Hrest.
  assert (Hall : all_token_chars k = true) by (destruct k; [discriminate | exact Hk]).
  assert (Hend : ends_token rest) by (destruct Hrest as [-> | [r ->]]; reflexivity).
  unfold action_text, action_of, set_action.
  rewrite !append_assoc. push_append.
  cbn [skip_spaces placeholder Ascii.eqb Bool.eqb].
  cbn [take_token]. change (is_token_char "_") with true. cbv iota.
  rewrite (take_token_app k _ Hall) by reflexivity.
  cbn [skip_spaces Ascii.eqb Bool.eqb placeholder].
  rewrite (take_token_app k rest Hall Hend).
  destruct k as [|c k]; [discriminate|].
  f_equal. f_equal.
  destruct Hrest as [-> | [r ->]]; reflexivity.
Qed.

Lemma set_actions_space (fuel : nat) (s : string) :
  set_actions fuel (String " " s) = set_actions fuel s.
Proof. destruct fuel; reflexivity. Qed.

Lemma set_actions_texts (ks : list string) (fuel : nat) :
  ks <> [] -> Forall (fun k => is_token k = true) ks -> (length ks <= fuel)%nat ->
  set_actions fuel (String.concat ", " (action_text <$> ks)) = Some (action_of <$> ks).
Proof.
  revert fuel. induction ks as [|k ks IH]; intros fuel Hne Hks Hfuel; [congruence|].
  apply Forall_cons in Hks as [Hk Hks].
  destruct fuel as [|fuel]; [simpl in Hfuel; lia|].
  destruct ks as [|k2 ks].
  - cbn [fmap list_fmap String.concat set_actions].
    rewrite <- (append_empty_r (action_text k)), set_action_text by auto.
    reflexivity.
  - change (String.concat ", " (action_text <$> k :: k2 :: ks))
      with (action_text k +:+ String "," (String " " (String.concat ", " (action_text <$> k2 :: ks)))).
    cbn [set_actions]. rewrite set_action_text by eauto.
    cbn [Ascii.eqb Bool.eqb]. rewrite set_actions_space, IH; auto.
    simpl in Hfuel. simpl. lia.
Qed.

Lemma length_concat_texts (ks : list string) :
  (length ks <= String.length (String.concat ", " (action_text <$> ks)))%nat.
Proof.
  induction ks as [|k ks IH]; [simpl; lia|].
  destruct ks as [|k2 ks]; [simpl; lia|].
  change (String.concat ", " (action_text <$> k :: k2 :: ks))
    with (action_text k +:+ String "," (String " " (String.concat ", " (action_text <$> k2 :: ks)))).
  rewrite length_append. unfold action_text at 1. push_append.
  cbn [String.length length] in *. lia.
Qed.

Lemma parse_update_expression_texts (ks : list string) :
  ks <> [] -> Forall (fun k => is_token k = true) ks ->
  parse_update_expression ("SET " +:+ String.concat ", " (action_text <$> ks))
  = Some (action_of <$> ks).
Proof.
  intros Hne Hks. push_append. cbn [parse_update_expression].
  apply set_actions_texts; auto.
  pose proof (length_concat_texts ks). cbn [String.length]. lia.
Qed.

(** *** What the table makes of what it is sent *)

Lemma try_map_cons {A B : Type} (f : A -> exn + B) (x : A) (l : list A) :
  try_map f (x :: l)
  = match f x with
    | inl e => inl e
    | inr y =>
        match try_map f l with
        | inl e => inl e
        | inr ys => inr (y :: ys)
        end
    end.
Proof. reflexivity. Qed.

Lemma to_db_dict_Forall2 (d : dict) (d' : dbdict) :
  to_db_dict d = inr d' ->
  Forall2 (fun kv kv' => fst kv' = fst kv /\ fst kv <> EmptyString
                         /\ to_db (snd kv) = inr (snd kv')) d d'.
Proof.
  unfold to_db_dict. revert d'. induction d as [|[k v] d IH]; intros d'.
  - intros [= <-]. constructor.
  - rewrite try_map_cons. unfold entry_to_db at 1. cbn [fst snd].
    destruct k as [|c k]; [discriminate|].
    destruct (to_db v) as [e|v'] eqn:Hv; [discriminate|].
    destruct (try_map _ d) as [e|d0]; [discriminate|].
    intros [= <-]. constructor; [|apply IH; reflexivity].
    cbn [fst snd]. split; [reflexivity|]. split; [discriminate | exact Hv].
Qed.

Lemma to_db_dict_keys (d : dict) (d' : dbdict) :
  to_db_dict d = inr d' -> keys d' = keys d.
Proof.
  intros H. apply to_db_dict_Forall2 in H. unfold keys.
  induction H as [|kv kv' d d' [Hk _] _ IH]; [reflexivity|].
  rewrite !fmap_cons, Hk, IH. reflexivity.
Qed.

Lemma to_db_dict_get (d : dict) (d' : dbdict) (k : string) (v : pyval) :
  to_db_dict d = inr d' -> dict_get k d = Some v ->
  exists v', to_db v = inr v' /\ dict_get k d' = Some v'.
Proof.
  intros H. apply to_db_dict_Forall2 in H.
  induction H as [|[k0 v0] [k1 v1] d d' (Hk & _ & Hv) _ IH]; cbn [dict_get fst snd] in *;
    [discriminate|].
  subst k1. destruct (String.eqb k0 k); [|exact IH].
  intros [= <-]. eauto.
Qed.

(** Renaming the keys does not change what the values become. *)
Lemma to_db_dict_rename (f : string -> string) (d : dict) (d' : dbdict) :
  (forall k, f k <> EmptyString) ->
  to_db_dict d = inr d' ->
  to_db_dict ((fun kv => (f (fst kv), snd kv)) <$> d)
  = inr ((fun kv => (f (fst kv), snd kv)) <$> d').
Proof.
  intros Hf. unfold to_db_dict. revert d'. induction d as [|[k v] d IH]; intros d'.
  - intros [= <-]. reflexivity.
  - rewrite fmap_cons, !try_map_cons. unfold entry_to_db at 1 3. cbn [fst snd].
    destruct k as [|c k]; [discriminate|].
    pose proof (Hf (String c k)) as Hk.
    destruct (f (String c k)) as [|c' k'] eqn:Hfk; [congruence|].
    destruct (to_db v) as [e|v']; [discriminate|].
    destruct (try_map _ d) as [e|d0]; [discriminate|].
    intros [= <-]. rewrite (IH d0) by reflexivity.
    rewrite fmap_cons. cbn [fst snd]. rewrite Hfk. reflexivity.
Qed.

Lemma prefixed_NoDup {V : Type} (p : string) (fields : list (string * V)) :
  NoDup (keys fields) ->
  NoDup ((fun kv : string * V => p +:+ fst kv) <$> fields).
Proof.
  intros Hnd. change (NoDup ((String.append p ∘ fst) <$> fields)).
  rewrite list_fmap_compose.
  apply NoDup_fmap_2; [intros a b; apply append_inj | exact Hnd].
Qed.

(** What the loop of the PUT branch builds, field by field. *)
Lemma put_loop_fields (d : dict) :
  NoDup (keys d) ->
  put_loop d
  = (action_text <$> keys (non_key_fields d),
     (fun kv => ("#_" +:+ fst kv, PStr (fst kv))) <$> non_key_fields d,
     (fun kv => (":" +:+ fst kv, snd kv)) <$> non_key_fields d).
Proof.
  intros Hnd. apply non_key_fields_NoDup in Hnd.
  unfold put_loop. rewrite put_loop_acc. cbn [app].
  rewrite !fold_dict_set_fresh by (cbn [keys fmap list_fmap app]; apply prefixed_NoDup, Hnd).
  unfold keys. rewrite <- list_fmap_compose. reflexivity.
Qed.

(** The placeholders of the loop resolve to the fields they were made for. *)
Lemma resolve_fields (fields : dict) (sets : dbdict) :
  NoDup (keys fields) ->
  to_db_dict fields = inr sets ->
  mapM (resolve ((fun kv => ("#_" +:+ fst kv, PStr (fst kv))) <$> fields)
                ((fun kv => (":" +:+ fst kv, snd kv)) <$> sets))
       (action_of <$> keys fields)
  = Some sets.
Proof.
  intros Hnd Hsets. pose proof (to_db_dict_keys _ _ Hsets) as Hkeys.
  rewrite <- Hkeys. unfold keys at 1. rewrite <- list_fmap_compose.
  apply mapM_fmap_Forall_Some, Forall_forall.
  intros [k v] Hin. unfold resolve, action_of, compose. cbn [fst snd].
  assert (Hk : k ∈ keys fields).
  { rewrite <- Hkeys. apply (list_elem_of_fmap_2 fst _ _ Hin). }
  apply list_elem_of_fmap in Hk as ([k0 v0] & -> & Hin0). cbn [fst] in *.
  rewrite (dict_get_elem _ (PStr k0)), (dict_get_elem _ v); [reflexivity | | | |].
  - unfold keys. rewrite <- list_fmap_compose. apply (prefixed_NoDup ":").
    rewrite Hkeys. exact Hnd.
  - apply (list_elem_of_fmap_2 (fun a => (":" +:+ fst a, snd a)) _ _ Hin).
  - unfold keys. rewrite <- list_fmap_compose. apply (prefixed_NoDup "#_"), Hnd.
  - apply (list_elem_of_fmap_2 (fun a => ("#_" +:+ fst a, PStr (fst a))) _ _ Hin0).
Qed.

Lemma valid_key_str (s : string) : s <> EmptyString -> valid_key (PStr s) = Some s.
Proof. destruct s; [congruence | reflexivity]. Qed.

Lemma valid_key_inv (v : pyval) (s : string) :
  valid_key v = Some s -> v = PStr s /\ s <> EmptyString.
Proof.
  destruct v as [| | | |[|c x]| |]; try discriminate.
  intros [= <-]. split; [reflexivity | discriminate].
Qed.

(** What the table does with the update the PUT branch builds. *)
Lemma table_exec_update (d : dict) (sets : dbdict) (s : string) (t : gmap string dbdict) :
  s <> EmptyString ->
  NoDup (keys d) ->
  non_key_fields d <> [] ->
  Forall (fun k => is_token k = true) (keys (non_key_fields d)) ->
  to_db_dict (non_key_fields d) = inr sets ->
  let '(expr, names, values) := put_loop d in
  let item := apply_sets sets (default [("student_id", DStr s)] (t !! s)) in
  expr <> []
  /\ table_exec (update_item [("student_id", PStr s)]
                  ("SET " +:+ String.concat ", " expr) names values "ALL_NEW") t
     = (inr [("Attributes", DDict item)], <[s := item]> t).
Proof.
  intros Hs Hnd Hne Htok Hsets. rewrite (put_loop_fields d Hnd).
  split.
  { unfold keys. destruct (non_key_fields d); [congruence | discriminate]. }
  unfold table_exec.
  rewrite (to_db_dict_rename (String.append ":") _ _ (fun k => ltac:(discriminate)) Hsets).
  cbn [key_of]. rewrite String.eqb_refl, (valid_key_str s Hs).
  rewrite parse_update_expression_texts; auto.
  - rewrite (resolve_fields _ _ (non_key_fields_NoDup d Hnd) Hsets).
    rewrite (to_db_dict_keys _ _ Hsets), non_key_fields_keys.
    rewrite String.eqb_refl. reflexivity.
  - unfold keys. destruct (non_key_fields d); [congruence | discriminate].
Qed.




(** A Decimal among the attributes stops [json.dumps]. *)
Lemma json_value_decimal (item : dbdict) (k : string) (c e : Z) :
  dict_get k item = Some (DDecimal c e) ->
  json_value (DDict item)
  = inl (TypeError "Object of type Decimal is not JSON serializable").
Proof.
  intros Hk. unfold json_value.
  assert (H : mapM (fun '(k, x) => pair k <$> as_json x) item = None).
  { apply mapM_None. induction item as [|[k0 v0] item IH]; cbn [dict_get] in Hk;
      [discriminate|].
    destruct (String.eqb k0 k).
    - injection Hk as ->. apply Exists_cons_hd. reflexivity.
    - apply Exists_cons_tl, IH, Hk. }
  cbn [as_json]. rewrite H. reflexivity.
Qed.

(** The JSON value of a record has the keys of the record, in their order,
    and under each the JSON value of what the record holds. *)
Lemma json_value_dict (item : dbdict) (record : pyval) :
  json_value (DDict item) = inr record ->
  exists fields,
    record = PDict fields
    /\ Forall2 (fun kv kv' => fst kv' = fst kv /\ json_value (snd kv) = inr (snd kv'))
               item fields.
Proof.
  unfold json_value. cbn [as_json].
  destruct (mapM _ item) as [fields|] eqn:Hm; [|discriminate].
  intros [= <-]. exists fields. split; [reflexivity|].
  apply mapM_Some_1 in Hm.
  induction Hm as [|[k v] [k' v'] item fields Hkv _ IH]; constructor; [|exact IH].
  cbn [fst snd]. unfold json_value. destruct (as_json v) as [j|]; [|discriminate].
  injection Hkv as <- <-. split; reflexivity.
Qed.

(** A truthy value that [json.dumps] accepts is written as some text. *)
Lemma json_value_text (item : dbval) (record : pyval) (status : Z) :
  db_truthy item = true -> json_value item = inr record ->
  body (_resp status record) <> EmptyString.
Proof.
  unfold json_value.
  destruct item as [|[|]| |[|c s]|l|d]; try discriminate; cbn [as_json];
    try (intros _ [= <-]; discriminate).
  - destruct (mapM as_json l); [|discriminate]. intros _ [= <-]. discriminate.
  - destruct (mapM _ d); [|discriminate]. intros _ [= <-]. discriminate.
Qed.

(** ** Properties of the handler *)

(** Splits a program of [dispatch] into its branches. *)
Ltac branches :=
  repeat (simpl; try exact I; try (intros; reflexivity);
          match goal with
          | |- context [lift ?x] => destruct x eqn:?
          | |- context [if ?b then _ else _] => destruct b eqn:?
          | |- context [put_loop ?x] => destruct (put_loop x) as [[? ?] ?] eqn:?
          end).

Section Properties.

Variable json_loads : string -> exn + pyval.

Lemma not_str_nonempty (s : string) : s <> EmptyString -> not_str (Some s) = false.
Proof. destruct s; [congruence | reflexivity]. Qed.

Lemma str_or_nonempty (s y : string) : s <> EmptyString -> str_or (Some s) y = s.
Proof. destruct s; [congruence | reflexivity]. Qed.

(** *** The branches *)

Lemma handler_options (event : Event) :
  method_of event = "OPTIONS" ->
  lambda_handler json_loads event = Ret (_resp 200 (PDict [])).
Proof. unfold method_of, lambda_handler. intros ->. reflexivity. Qed.

Lemma handler_try (event : Event) :
  method_of event <> "OPTIONS" ->
  lambda_handler json_loads event =
  try_except (dispatch json_loads event (method_of event))
             (fun e => Ret (_resp 500 (error_body (str e)))).
Proof.
  unfold method_of, lambda_handler. intros H.
  destruct (String.eqb_spec (default "GET" (httpMethod event)) "OPTIONS");
    [contradiction | reflexivity].
Qed.

Lemma handler_unknown (event : Event) :
  method_of event ∉ known_methods ->
  lambda_handler json_loads event = Ret (_resp 405 (error_body "method not allowed")).
Proof.
  unfold known_methods. intros H.
  rewrite handler_try by (intros E; apply H; rewrite E; set_solver).
  unfold dispatch.
  repeat match goal with
         | |- context [String.eqb (method_of event) ?m] =>
             destruct (String.eqb_spec (method_of event) m) as [E|_];
             [exfalso; apply H; rewrite E; set_solver|]
         end.
  reflexivity.
Qed.

Lemma handler_post (event : Event) :
  method_of event = "POST" ->
  lambda_handler json_loads event =
  try_except
    (payload <- lift (json_loads (text_of event)) ;;
     present <- lift (py_in "student_id" payload) ;;
     if negb present then Ret (_resp 400 (error_body "student_id is required"))
     else table (put_item payload) ;;
          Ret (_resp 200 (PDict [("message", PStr "Student record created");
                                 ("student", payload)])))%prog
    (fun e => Ret (_resp 500 (error_body (str e)))).
Proof. intros H. rewrite handler_try by (rewrite H; discriminate). rewrite H. reflexivity. Qed.

Lemma handler_get (event : Event) (sid : string) :
  method_of event = "GET" ->
  params_of event !! "student_id" = Some sid -> sid <> EmptyString ->
  lambda_handler json_loads event =
  try_except
    (res <- table (get_item [("student_id", PStr sid)]) ;;
     let item := default DNone (dict_get "Item" res) in
     if negb (db_truthy item) then Ret (_resp 404 (error_body "not found"))
     else record <- lift (json_value item) ;; Ret (_resp 200 record))%prog
    (fun e => Ret (_resp 500 (error_body (str e)))).
Proof.
  intros H Hsid Hne. rewrite handler_try by (rewrite H; discriminate).
  rewrite H. unfold dispatch. simpl String.eqb. cbv iota.
  fold (params_of event). rewrite Hsid, (not_str_nonempty _ Hne). reflexivity.
Qed.

Lemma handler_delete (event : Event) (sid : string) :
  method_of event = "DELETE" ->
  params_of event !! "student_id" = Some sid -> sid <> EmptyString ->
  lambda_handler json_loads event =
  try_except
    (table (delete_item [("student_id", PStr sid)]) ;;
     Ret (_resp 200 (PDict [("message", PStr ("Student " +:+ sid +:+ " deleted"))])))%prog
    (fun e => Ret (_resp 500 (error_body (str e)))).
Proof.
  intros H Hsid Hne. rewrite handler_try by (rewrite H; discriminate).
  rewrite H. unfold dispatch. simpl String.eqb. cbv iota.
  fold (params_of event). rewrite Hsid, (not_str_nonempty _ Hne). reflexivity.
Qed.

Lemma handler_no_param (event : Event) :
  method_of event = "GET" \/ method_of event = "DELETE" ->
  params_of event !! "student_id" = None ->
  lambda_handler json_loads event = Ret (_resp 400 (error_body "student_id is required")).
Proof.
  intros H Hsid.
  rewrite handler_try by (destruct H as [H|H]; rewrite H; discriminate).
  unfold dispatch. destruct H as [-> | ->]; simpl String.eqb; cbv iota;
    fold (params_of event); rewrite Hsid; reflexivity.
Qed.

Lemma handler_put (event : Event) (d : dict) :
  method_of event = "PUT" ->
  json_loads (text_of event) = inr (PDict d) ->
  lambda_handler json_loads event =
  try_except
    (let sid := default PNone (dict_get "student_id" d) in
     if negb (truthy sid) then Ret (_resp 400 (error_body "student_id is required"))
     else
       let '(expr, names, values) := put_loop d in
       if negb (match expr with [] => false | _ => true end) then
         Ret (_resp 400 (error_body "no fields to update"))
       else
         res <- table (update_item [("student_id", sid)]
                         ("SET " +:+ String.concat ", " expr) names values "ALL_NEW") ;;
         attributes <- lift (dict_getitem res "Attributes") ;;
         student <- lift (json_value attributes) ;;
         Ret (_resp 200 (PDict [("message", PStr "Student record updated");
                                ("student", student)])))%prog
    (fun e => Ret (_resp 500 (error_body (str e)))).
Proof.
  intros H Hd. rewrite handler_try by (rewrite H; discriminate).
  rewrite H. unfold dispatch. simpl String.eqb. cbv iota.
  fold (text_of event). rewrite Hd. reflexivity.
Qed.

(** *** Exceptions *)

Lemma propagates_dispatch (event : Event) (method : string) :
  propagates (dispatch json_loads event method).
Proof. unfold dispatch. branches. Qed.

Lemma first_call_try_except {A : Type} (p : prog A) (h : exn -> prog A) :
  (forall e, first_call (h e) = None) ->
  first_call (try_except p h) = first_call p.
Proof. intros Hh. destruct p; simpl; auto. Qed.

Section Run.

Context {S : Type} (exec : call -> S -> outcome * S).

Lemma run_try_except_total {A : Type} (p : prog A) (f : exn -> A) (s : S) :
  exists a s', run exec (try_except p (fun e => Ret (f e))) s = (inr a, s').
Proof.
  revert s. induction p as [a | e | c k IH]; intros s; simpl; eauto.
  destruct (exec c s) as [o s']. apply IH.
Qed.

Lemma run_try_except_raise {A : Type} (p : prog A) (h : exn -> prog A)
    (c : call) (e : exn) (s s' : S) :
  propagates p -> first_call p = Some c -> exec c s = (inl e, s') ->
  run exec (try_except p h) s = run exec (h e) s'.
Proof.
  destruct p as [a | e' | c' k]; simpl; try discriminate.
  intros Hk [= ->] ->. rewrite Hk. reflexivity.
Qed.

(** The handler calls the table once at most. *)
Lemma trace_at_most_one (event : Event) (s : S) :
  (length (trace exec (lambda_handler json_loads event) s) <= 1)%nat.
Proof.
  destruct (String.eqb_spec (method_of event) "OPTIONS") as [Ho | Ho].
  { rewrite (handler_options _ Ho). simpl. lia. }
  rewrite (handler_try _ Ho). unfold dispatch.
  repeat (cbn [bind lift try_except trace table length];
          match goal with
          | |- (0 <= 1)%nat => lia
          | |- (1 <= 1)%nat => lia
          | |- context [String.eqb (method_of event) ?m] =>
              destruct (String.eqb (method_of event) m)
          | |- context [exec ?c s] => destruct (exec c s) as [[?|?] ?]
          | |- context [lift ?x] => destruct x
          | |- context [if ?b then _ else _] => destruct b
          | |- context [put_loop ?x] => destruct (put_loop x) as [[? ?] ?]
          end).
Qed.

(** The answer to a GET is made from the outcome of [get_item] alone. *)
Lemma run_get (event : Event) (sid : string) (s : S) :
  method_of event = "GET" ->
  params_of event !! "student_id" = Some sid -> sid <> EmptyString ->
  run exec (lambda_handler json_loads event) s
  = (inr (get_answer (fst (exec (get_item [("student_id", PStr sid)]) s))),
     snd (exec (get_item [("student_id", PStr sid)]) s)).
Proof.
  intros Hm Hsid Hne. rewrite (handler_get _ sid Hm Hsid Hne).
  cbn [bind table try_except run].
  destruct (exec (get_item [("student_id", PStr sid)]) s) as [[e|res] s'];
    cbn [fst snd lift bind try_except run get_answer]; [reflexivity|].
  destruct (db_truthy (default DNone (dict_get "Item" res))); [|reflexivity].
  cbn [negb]. destruct (json_value _); reflexivity.
Qed.

(** The answer to a PUT that reaches the table is made from the outcome of
    [update_item] alone. *)
Lemma run_put (event : Event) (d : dict) (sid : pyval) (expr : list string)
    (names values : dict) (s : S) :
  method_of event = "PUT" ->
  json_loads (text_of event) = inr (PDict d) ->
  dict_get "student_id" d = Some sid -> truthy sid = true ->
  put_loop d = (expr, names, values) -> expr <> [] ->
  run exec (lambda_handler json_loads event) s
  = (inr (put_answer (fst (exec (update_item [("student_id", sid)]
                                   ("SET " +:+ String.concat ", " expr)
                                   names values "ALL_NEW") s))),
     snd (exec (update_item [("student_id", sid)]
                  ("SET " +:+ String.concat ", " expr) names values "ALL_NEW") s)).
Proof.
  intros Hm Hd Hs Ht Hloop Hexpr.
  rewrite (handler_put _ _ Hm Hd), Hs. cbn [default from_option id]. rewrite Ht, Hloop.
  destruct expr as [|a expr]; [congruence|].
  cbn [negb bind table try_except run].
  destruct (exec _ s) as [[e|res] s']; cbn [fst snd lift bind try_except run put_answer];
    [reflexivity|].
  unfold dict_getitem. destruct (dict_get "Attributes" res) as [attributes|];
    cbn [lift bind try_except run]; [|reflexivity].
  destruct (json_value attributes); reflexivity.
Qed.

(** The answer to a DELETE is the same whatever the table held: 200 unless
    [delete_item] raises. *)
Lemma run_delete (event : Event) (sid : string) (s : S) :
  method_of event = "DELETE" ->
  params_of event !! "student_id" = Some sid -> sid <> EmptyString ->
  run exec (lambda_handler json_loads event) s
  = (inr match fst (exec (delete_item [("student_id", PStr sid)]) s) with
         | inl e => _resp 500 (error_body (str e))
         | inr _ => _resp 200 (PDict [("message", PStr ("Student " +:+ sid +:+ " deleted"))])
         end,
     snd (exec (delete_item [("student_id", PStr sid)]) s)).
Proof.
  intros Hm Hsid Hne. rewrite (handler_delete _ sid Hm Hsid Hne).
  cbn [bind table try_except run].
  destruct (exec (delete_item [("student_id", PStr sid)]) s) as [[e|res] s']; reflexivity.
Qed.

End Run.

(** *** The claims that hold of every table *)

(** C5 (as amended). An OPTIONS request is answered without a call to the
    table, whatever the table holds: status 200, the fixed CORS headers,
    and the body [{}], the JSON text of the empty dict [_resp] is given. *)
Theorem options_preflight (event : Event) :
  httpMethod event = Some "OPTIONS" ->
  exists r,
    lambda_handler json_loads event = Ret r
    /\ statusCode r = 200
    /\ headers r = cors_headers
    /\ body r = "{}"
    /\ forall (S : Type) (exec : call -> S -> outcome * S) (s : S),
         run exec (lambda_handler json_loads event) s = (inr r, s)
         /\ trace exec (lambda_handler json_loads event) s = [].
Proof.
  intros H. exists (_resp 200 (PDict [])).
  rewrite handler_options by (unfold method_of; rewrite H; reflexivity).
  repeat split.
Qed.

(** C6. A request that lacks its required input is answered 400 with an
    error body, and the handler returns without any call to the table:
    a POST or PUT body without [student_id], a GET or DELETE query
    without [student_id], a PUT body with [student_id] alone. *)
Theorem missing_input_is_400 (event : Event) :
  missing_input json_loads event ->
  exists msg,
    lambda_handler json_loads event = Ret (_resp 400 (error_body msg))
    /\ body (_resp 400 (error_body msg)) = json_dumps (PDict [("error", PStr msg)]).
Proof.
  intros [d Hm Hd Hk | Hm Hp | Hm Hp | d Hm Hd Hk | v Hm Hd].
  - exists "student_id is required". split; [|reflexivity].
    rewrite (handler_post _ Hm), Hd. simpl. unfold dict_has. rewrite Hk. reflexivity.
  - exists "student_id is required". split; [|reflexivity]. apply handler_no_param; auto.
  - exists "student_id is required". split; [|reflexivity]. apply handler_no_param; auto.
  - exists "student_id is required". split; [|reflexivity].
    rewrite (handler_put _ _ Hm Hd), Hk. reflexivity.
  - rewrite (handler_put _ _ Hm Hd). simpl. destruct (truthy v).
    + exists "no fields to update". split; reflexivity.
    + exists "student_id is required". split; reflexivity.
Qed.

(** C8. Whatever the table does, the handler returns a response and never
    raises; and when the call it makes on the table (it makes one at most:
    [trace_at_most_one]) raises [e], the response is status 500 with the
    body [{"error": str(e)}]. *)
Theorem storage_exception_is_500 (event : Event)
    (S : Type) (exec : call -> S -> outcome * S) (s : S) :
  (exists r s', run exec (lambda_handler json_loads event) s = (inr r, s'))
  /\ forall c e s',
       first_call (lambda_handler json_loads event) = Some c ->
       exec c s = (inl e, s') ->
       run exec (lambda_handler json_loads event) s
       = (inr (_resp 500 (error_body (str e))), s')
       /\ statusCode (_resp 500 (error_body (str e))) = 500
       /\ body (_resp 500 (error_body (str e)))
          = json_dumps (PDict [("error", PStr (str e))]).
Proof.
  destruct (String.eqb_spec (method_of event) "OPTIONS") as [Ho | Ho].
  - rewrite (handler_options _ Ho). split; [simpl; eauto | discriminate].
  - rewrite (handler_try _ Ho). split; [apply run_try_except_total|].
    intros c e s' Hc He. rewrite first_call_try_except in Hc by reflexivity.
    rewrite (run_try_except_raise exec _ _ c e s s'); auto using propagates_dispatch.
Qed.

(** C9. A request without [httpMethod] is handled as the GET request with
    the same body and query; a request whose [httpMethod] is none of GET,
    POST, PUT, DELETE, OPTIONS is answered 405 with an error body, without
    a call to the table. *)
Theorem method_dispatch (text : option string) (params : option (gmap string string)) :
  lambda_handler json_loads (mkEvent None text params)
  = lambda_handler json_loads (mkEvent (Some "GET") text params)
  /\ forall m,
       m ∉ known_methods ->
       lambda_handler json_loads (mkEvent (Some m) text params)
       = Ret (_resp 405 (error_body "method not allowed"))
       /\ statusCode (_resp 405 (error_body "method not allowed")) = 405
       /\ body (_resp 405 (error_body "method not allowed"))
          = json_dumps (PDict [("error", PStr "method not allowed")]).
Proof.
  split; [reflexivity|]. intros m Hm. split; [|split; reflexivity].
  apply handler_unknown. exact Hm.
Qed.

(** C10. A POST or PUT whose body is a non-empty text that [json.loads]
    rejects is answered 500 with the decoder's message as [{"error": ...}]:
    the failure reaches the generic [except], no 400 is produced and the
    table is not called. *)
Theorem invalid_json_is_500 (event : Event) (text : string) (e : exn) :
  method_of event = "POST" \/ method_of event = "PUT" ->
  event_body event = Some text ->
  text <> EmptyString ->
  json_loads text = inl e ->
  lambda_handler json_loads event = Ret (_resp 500 (error_body (str e)))
  /\ statusCode (_resp 500 (error_body (str e))) = 500
  /\ body (_resp 500 (error_body (str e))) = json_dumps (PDict [("error", PStr (str e))]).
Proof.
  intros Hm Hb Hne He. split; [|split; reflexivity].
  assert (Ht : text_of event = text).
  { unfold text_of. rewrite Hb. apply str_or_nonempty, Hne. }
  rewrite handler_try by (destruct Hm as [H|H]; rewrite H; discriminate).
  unfold dispatch.
  destruct Hm as [-> | ->]; simpl String.eqb; cbv iota;
    fold (text_of event); rewrite Ht, He; reflexivity.
Qed.

(** *** One request against the table *)

Lemma invoke_post (event : Event) (d : dict) (s : string) (t : gmap string dbdict) :
  method_of event = "POST" ->
  json_loads (text_of event) = inr (PDict d) ->
  dict_get "student_id" d = Some (PStr s) -> s <> EmptyString ->
  invoke json_loads event t
  = match to_db_dict d with
    | inr item =>
        (inr (_resp 200 (PDict [("message", PStr "Student record created");
                                ("student", PDict d)])),
         <[s := item]> t)
    | inl e => (inr (_resp 500 (error_body (str e))), t)
    end.
Proof.
  intros Hm Hd Hs Hne. unfold invoke. rewrite (handler_post _ Hm), Hd.
  cbn [lift bind py_in]. unfold dict_has. rewrite Hs.
  cbn [negb bind table try_except run table_exec].
  destruct (to_db_dict d) as [e|item]; [reflexivity|]. rewrite Hs.
  cbn [mbind option_bind]. rewrite (valid_key_str s Hne). reflexivity.
Qed.

Lemma invoke_get (event : Event) (sid : string) (t : gmap string dbdict) :
  method_of event = "GET" ->
  params_of event !! "student_id" = Some sid -> sid <> EmptyString ->
  invoke json_loads event t
  = (inr (get_answer (inr match t !! sid with
                          | Some item => [("Item", DDict item)]
                          | None => []
                          end)), t).
Proof.
  intros Hm Hsid Hne. unfold invoke. rewrite (run_get table_exec _ sid t Hm Hsid Hne).
  cbn [table_exec key_of]. rewrite String.eqb_refl, (valid_key_str sid Hne). reflexivity.
Qed.

Lemma invoke_delete (event : Event) (sid : string) (t : gmap string dbdict) :
  method_of event = "DELETE" ->
  params_of event !! "student_id" = Some sid -> sid <> EmptyString ->
  invoke json_loads event t
  = (inr (_resp 200 (PDict [("message", PStr ("Student " +:+ sid +:+ " deleted"))])),
     delete sid t).
Proof.
  intros Hm Hsid Hne. unfold invoke. rewrite (handler_delete _ sid Hm Hsid Hne).
  cbn [bind table try_except run table_exec key_of].
  rewrite String.eqb_refl, (valid_key_str sid Hne). reflexivity.
Qed.

Lemma invoke_put (event : Event) (d : dict) (sets : dbdict) (s : string)
    (t : gmap string dbdict) :
  method_of event = "PUT" ->
  json_loads (text_of event) = inr (PDict d) ->
  NoDup (keys d) ->
  dict_get "student_id" d = Some (PStr s) -> s <> EmptyString ->
  non_key_fields d <> [] ->
  Forall (fun k => is_token k = true) (keys (non_key_fields d)) ->
  to_db_dict (non_key_fields d) = inr sets ->
  let item := apply_sets sets (default [("student_id", DStr s)] (t !! s)) in
  invoke json_loads event t
  = (inr (put_answer (inr [("Attributes", DDict item)])), <[s := item]> t).
Proof.
  intros Hm Hd Hnd Hs Hne Hf Htok Hsets. unfold invoke.
  pose proof (table_exec_update d sets s t Hne Hnd Hf Htok Hsets) as Hexec.
  destruct (put_loop d) as [[expr names] values] eqn:Hloop.
  destruct Hexec as [Hexpr Hexec].
  rewrite (run_put table_exec _ d (PStr s) expr names values t Hm Hd Hs); auto.
  - rewrite Hexec. reflexivity.
  - destruct s; [congruence | reflexivity].
Qed.

Lemma dict_set_nonempty {V : Type} (k : string) (v : V) (d : list (string * V)) :
  dict_set k v d <> [].
Proof. destruct d as [|[k' v'] d]; cbn [dict_set]; [|destruct (String.eqb k' k)]; discriminate. Qed.

Lemma apply_sets_nonempty {V : Type} (sets item : list (string * V)) :
  item <> [] -> apply_sets sets item <> [].
Proof.
  unfold apply_sets. revert item. induction sets as [|kv sets IH]; intros item Hne;
    cbn [fold_left]; [exact Hne|].
  apply IH, dict_set_nonempty.
Qed.

(** No request files a record under the empty key, or a record without
    attributes. *)
Lemma table_exec_ok (c : call) (t : gmap string dbdict) :
  table_ok t -> table_ok (snd (table_exec c t)).
Proof.
  unfold table_ok. intros Hok. destruct c as [item | Key | Key e names values rv | Key];
    cbn [table_exec].
  - destruct item as [| | | | | |d]; try exact Hok.
    destruct (to_db_dict d) as [?|attributes] eqn:Hd; [exact Hok|].
    destruct (dict_get "student_id" d) as [v|] eqn:Hv; [|exact Hok].
    cbn [mbind option_bind]. destruct (valid_key v) as [s|] eqn:Hs; [|exact Hok].
    apply valid_key_inv in Hs as [-> Hne]. apply map_Forall_insert_2; [|exact Hok].
    split; [exact Hne|]. intros ->. apply to_db_dict_keys in Hd.
    destruct d; [discriminate Hv | discriminate Hd].
  - destruct (key_of Key); exact Hok.
  - destruct (to_db_dict values) as [?|values']; [exact Hok|].
    destruct (key_of Key) as [s|] eqn:Hkey;
      [|destruct (parse_update_expression e); exact Hok].
    assert (Hs : s <> EmptyString).
    { destruct Key as [|[a v] [|? ?]]; try discriminate. cbn [key_of] in Hkey.
      destruct (String.eqb a "student_id"); [|discriminate].
      apply valid_key_inv in Hkey as [_ H]. exact H. }
    destruct (parse_update_expression e) as [actions|]; [|exact Hok].
    destruct (mapM (resolve names values') actions) as [sets|]; [|exact Hok].
    destruct (existsb (String.eqb "student_id") (keys sets)); [exact Hok|].
    apply map_Forall_insert_2; [|exact Hok]. split; [exact Hs|].
    apply apply_sets_nonempty.
    destruct (t !! s) as [item|] eqn:Hitem; cbn [default from_option id]; [|discriminate].
    apply (map_Forall_lookup_1 _ _ _ _ Hok Hitem).
  - destruct (key_of Key); [apply map_Forall_delete|]; exact Hok.
Qed.

Lemma run_table_ok {A : Type} (p : prog A) (t : gmap string dbdict) :
  table_ok t -> table_ok (snd (run table_exec p t)).
Proof.
  revert t. induction p as [a | e | c k IH]; intros t Hok; cbn [run]; auto.
  pose proof (table_exec_ok c t Hok) as Hok'.
  destruct (table_exec c t) as [o t']. apply IH, Hok'.
Qed.

Lemma invoke_table_ok (event : Event) (t : gmap string dbdict) :
  table_ok t -> table_ok (snd (invoke json_loads event t)).
Proof. apply run_table_ok. Qed.

(** What reaches the table: a payload in which [in] found [student_id], or
    a key that passed the [not sid] test. *)
Lemma calls_carry_key (event : Event) (c : call) :
  first_call (lambda_handler json_loads event) = Some c ->
  match c with
  | put_item Item => py_in "student_id" Item = inr true
  | update_item Key _ _ _ _ => exists sid, Key = [("student_id", sid)] /\ truthy sid = true
  | get_item Key | delete_item Key =>
      exists sid, Key = [("student_id", PStr sid)] /\ sid <> EmptyString
  end.
Proof.
  destruct (String.eqb_spec (method_of event) "OPTIONS") as [Ho | Ho].
  { rewrite (handler_options _ Ho). discriminate. }
  rewrite (handler_try _ Ho), first_call_try_except by reflexivity.
  unfold dispatch. fold (params_of event).
  repeat (cbn [bind lift first_call table]; try discriminate;
          match goal with
          | |- context [String.eqb (method_of event) ?m] =>
              destruct (String.eqb (method_of event) m)
          | |- context [lift ?x] => destruct x eqn:?
          | |- context [if ?b then _ else _] => destruct b eqn:?
          | |- context [put_loop ?x] => destruct (put_loop x) as [[? ?] ?] eqn:?
          end);
    intros [= <-].
  - match goal with
    | H : py_in _ _ = inr ?b |- _ => destruct b; [exact H | discriminate]
    end.
  - destruct (params_of event !! "student_id") as [[|a sid]|]; try discriminate.
    eexists. split; [reflexivity | discriminate].
  - eexists. split; [reflexivity|].
    match goal with
    | H : negb (truthy ?v) = false |- _ => destruct (truthy v); [reflexivity | discriminate]
    end.
  - destruct (params_of event !! "student_id") as [[|a sid]|]; try discriminate.
    eexists. split; [reflexivity | discriminate].
Qed.

(** *** The claims about what the table holds *)

(** C1. The round trip breaks on a number.  A POST whose body holds
    [student_id] = s and an integer field is answered 200, and the record
    is filed with the integer as a Decimal; the GET for s that follows is
    answered 500, [json.dumps] raising on the Decimal, where the claim has
    200 with the submitted fields. *)
Theorem number_breaks_round_trip (post get : Event) (d : dict) (item : dbdict)
    (s k : string) (n : Z) (t : gmap string dbdict) :
  method_of post = "POST" ->
  json_loads (text_of post) = inr (PDict d) ->
  dict_get "student_id" d = Some (PStr s) -> s <> EmptyString ->
  dict_get k d = Some (PInt n) ->
  to_db_dict d = inr item ->
  method_of get = "GET" -> params_of get !! "student_id" = Some s ->
  exists t1,
    invoke json_loads post t
    = (inr (_resp 200 (PDict [("message", PStr "Student record created");
                              ("student", PDict d)])), t1)
    /\ t1 !! s = Some item
    /\ invoke json_loads get t1
       = (inr (_resp 500 (error_body "Object of type Decimal is not JSON serializable")),
          t1)
    /\ statusCode (_resp 500 (error_body "Object of type Decimal is not JSON serializable"))
       <> 200.
Proof.
  intros Hpost Hd Hs Hne Hk Hitem Hget Hgs.
  exists (<[s := item]> t).
  rewrite (invoke_post _ _ _ _ Hpost Hd Hs Hne), Hitem.
  split; [reflexivity|]. split; [apply lookup_insert_eq|]. split; [|discriminate].
  rewrite (invoke_get _ _ _ Hget Hgs Hne), lookup_insert_eq.
  destruct (to_db_dict_get _ _ _ _ Hitem Hk) as (v' & Hv' & Hk').
  cbn [to_db] in Hv'. destruct (Z.abs n <? 10 ^ 38); [|discriminate].
  injection Hv' as <-.
  cbn [get_answer default from_option id dict_get String.eqb Ascii.eqb Bool.eqb].
  rewrite (json_value_decimal _ _ _ _ Hk').
  destruct item; [discriminate Hk' | reflexivity].
Qed.

(** C3 (as amended). A GET whose query holds a non-empty [student_id] is
    answered 404 when the table has no record under exactly that key; when
    it has one, and the record holds no number, the GET is answered 200 with
    the record as the whole body: the keys of the record in their order,
    each with the value the record has for it, nothing added or removed.
    (What a record that holds a number is answered is left out.) *)
Theorem get_by_key (event : Event) (sid : string) (t : gmap string dbdict) :
  method_of event = "GET" ->
  params_of event !! "student_id" = Some sid ->
  sid <> EmptyString ->
  table_ok t ->
  (t !! sid = None ->
   invoke json_loads event t = (inr (_resp 404 (error_body "not found")), t))
  /\ (forall record answer,
        t !! sid = Some record ->
        json_value (DDict record) = inr answer ->
        invoke json_loads event t = (inr (_resp 200 answer), t)
        /\ body (_resp 200 answer) = json_dumps answer
        /\ exists fields,
             answer = PDict fields
             /\ Forall2 (fun kv kv' => fst kv' = fst kv
                                       /\ json_value (snd kv) = inr (snd kv'))
                        record fields).
Proof.
  intros Hm Hsid Hne Hok. rewrite (invoke_get _ _ _ Hm Hsid Hne). split.
  - intros ->. reflexivity.
  - intros record answer Hr Hjson. rewrite Hr.
    destruct (map_Forall_lookup_1 _ _ _ _ Hok Hr) as [_ Hrec].
    destruct (json_value_dict _ _ Hjson) as (fields & -> & Hfields).
    cbn [get_answer default from_option id dict_get String.eqb Ascii.eqb Bool.eqb].
    rewrite Hjson. destruct record as [|kv record]; [congruence|].
    split; [reflexivity|]. split; [reflexivity|]. eauto.
Qed.

(** C7 (as amended). A DELETE whose query holds a non-empty [student_id]
    removes the record under that key and no other, and is answered 200
    with the message [Student <id> deleted]; the answer is the same, and
    the table unchanged, when there was no such record. *)
Theorem delete_by_key (event : Event) (sid : string) (t : gmap string dbdict) :
  method_of event = "DELETE" ->
  params_of event !! "student_id" = Some sid ->
  sid <> EmptyString ->
  exists t',
    invoke json_loads event t
    = (inr (_resp 200 (PDict [("message", PStr ("Student " +:+ sid +:+ " deleted"))])), t')
    /\ t' !! sid = None
    /\ (forall s, s <> sid -> t' !! s = t !! s)
    /\ (t !! sid = None -> t' = t).
Proof.
  intros Hm Hsid Hne. exists (delete sid t).
  split; [apply (invoke_delete _ _ _ Hm Hsid Hne)|].
  split; [apply lookup_delete_eq|]. split.
  - intros s Hs. apply lookup_delete_ne. congruence.
  - apply delete_id.
Qed.

End Properties.

(** ** The handler on concrete requests *)

Section Examples.

Import Scenario.

Local Notation "'handler'" := (lambda_handler Decoder.loads).
Local Notation "'serve'" := (invoke Decoder.loads).

(** The scenario of the specification, request by request. *)
Example scenario_post :
  serve (request "POST" (PDict ann)) ∅
  = (inr (_resp 200 (PDict [("message", PStr "Student record created");
                            ("student", PDict ann)])), with_ann).
Proof. vm_compute. reflexivity. Qed.

Example scenario_get :
  serve (query "GET" "s1") with_ann = (inr (_resp 200 (PDict ann)), with_ann).
Proof. vm_compute. reflexivity. Qed.

Example scenario_put :
  serve (request "PUT" (PDict grade)) with_ann
  = (inr (_resp 200 (PDict [("message", PStr "Student record updated");
                            ("student", PDict ann_graded)])),
     {[ "s1" := ann_graded_item ]}).
Proof. vm_compute. reflexivity. Qed.

Example scenario_delete_get :
  serve (query "DELETE" "s1") with_ann
  = (inr (_resp 200 (PDict [("message", PStr "Student s1 deleted")])), ∅)
  /\ serve (query "GET" "s1") ∅ = (inr (_resp 404 (error_body "not found")), ∅).
Proof. split; vm_compute; reflexivity. Qed.

(** *** Where the claims fail as stated *)

(** C2. The PUT branch pastes the field name into the placeholders [#_k]
    and [:k] it builds to keep the name out of the expression.  With a field
    name that is no token, here [first name], the table cannot read the SET
    expression: the PUT of a field that the POST branch stores is answered
    500 and the record is as it was, where the claim has the field
    overwritten and a 200. *)
Theorem put_field_not_a_token :
  with_ann !! "s1" = Some ann_item
  /\ dict_get "first name" ann_item = None
  /\ first_call (handler (request "PUT" (PDict [("student_id", PStr "s1");
                                                ("first name", PStr "Bob")])))
     = Some (update_item [("student_id", PStr "s1")]
                         "SET #_first name = :first name"
                         [("#_first name", PStr "first name")]
                         [(":first name", PStr "Bob")]
                         "ALL_NEW")
  /\ (exists r,
        serve (request "PUT" (PDict [("student_id", PStr "s1"); ("first name", PStr "Bob")]))
              with_ann
        = (inr r, with_ann)
        /\ statusCode r = 500
        /\ statusCode r <> 200)
  /\ serve (request "POST" (PDict [("student_id", PStr "s1"); ("first name", PStr "Bob")]))
           with_ann
     = (inr (_resp 200 (PDict [("message", PStr "Student record created");
                               ("student", PDict [("student_id", PStr "s1");
                                                  ("first name", PStr "Bob")])])),
        {[ "s1" := [("student_id", DStr "s1"); ("first name", DStr "Bob")] ]}).
Proof.
  split; [vm_compute; reflexivity|]. split; [reflexivity|].
  split; [vm_compute; reflexivity|]. split; [|vm_compute; reflexivity].
  eexists. split; [vm_compute; reflexivity|].
  split; [reflexivity | discriminate].
Qed.

(** C3 fails at the empty [student_id]: the parameter is there, the table
    has no record under it, and the answer is 400, not 404. *)
Lemma get_empty_id :
  params_of (query "GET" EmptyString) !! "student_id" = Some EmptyString
  /\ (∅ : gmap string dbdict) !! EmptyString = None
  /\ exists r,
       serve (query "GET" EmptyString) ∅ = (inr r, ∅)
       /\ statusCode r = 400
       /\ statusCode r <> 404.
Proof.
  split; [vm_compute; reflexivity|]. split; [reflexivity|].
  eexists. split; [vm_compute; reflexivity|]. split; [reflexivity | discriminate].
Qed.

(** C5 fails on the body: [_resp] is given [{}], not [None], and the body
    of the OPTIONS response is the two characters of its JSON text. *)
Lemma options_body_not_empty :
  exists r,
    handler (mkEvent (Some "OPTIONS") None None) = Ret r
    /\ body r = "{}"
    /\ body r <> EmptyString.
Proof. eexists. split; [reflexivity|]. split; [reflexivity | discriminate]. Qed.

(** C7 fails at the empty [student_id]: the DELETE is answered 400. *)
Lemma delete_empty_id :
  params_of (query "DELETE" EmptyString) !! "student_id" = Some EmptyString
  /\ exists r,
       serve (query "DELETE" EmptyString) ∅ = (inr r, ∅)
       /\ statusCode r = 400
       /\ statusCode r <> 200.
Proof.
  split; [vm_compute; reflexivity|].
  eexists. split; [vm_compute; reflexivity|]. split; [reflexivity | discriminate].
Qed.

(** C4. The POST branch tests only that [student_id] is a key of the
    payload: with the body [{"student_id": ""}] it reaches [put_item] with
    the empty [student_id], and it is the table that refuses the record
    (500).  The PUT, GET and DELETE branches refuse the same id themselves,
    with 400 ([calls_carry_key]). *)
Theorem post_writes_empty_student_id :
  first_call (handler (request "POST" (PDict [("student_id", PStr EmptyString)])))
  = Some (put_item (PDict [("student_id", PStr EmptyString)]))
  /\ trace table_exec (handler (request "POST" (PDict [("student_id", PStr EmptyString)]))) ∅
     = [put_item (PDict [("student_id", PStr EmptyString)])]
  /\ serve (request "POST" (PDict [("student_id", PStr EmptyString)])) ∅
     = (inr (_resp 500 (error_body "the key does not match the schema")), ∅)
  /\ handler (request "PUT" (PDict [("student_id", PStr EmptyString); ("grade", PStr "A")]))
     = Ret (_resp 400 (error_body "student_id is required"))
  /\ handler (query "GET" EmptyString) = Ret (_resp 400 (error_body "student_id is required"))
  /\ handler (query "DELETE" EmptyString)
     = Ret (_resp 400 (error_body "student_id is required")).
Proof. repeat split; vm_compute; reflexivity. Qed.

End Examples.

(** ** The theorems at concrete requests *)

Section Witnesses.

Import Scenario.

Local Notation "'handler'" := (lambda_handler Decoder.loads).
Local Notation "'serve'" := (invoke Decoder.loads).

Lemma number_breaks_round_trip_witness :
  exists t1,
    serve (request "POST" (PDict aged)) ∅
    = (inr (_resp 200 (PDict [("message", PStr "Student record created");
                              ("student", PDict aged)])), t1)
    /\ t1 !! "s1" = Some aged_item
    /\ serve (query "GET" "s1") t1
       = (inr (_resp 500 (error_body "Object of type Decimal is not JSON serializable")),
          t1)
    /\ statusCode (_resp 500 (error_body "Object of type Decimal is not JSON serializable"))
       <> 200.
Proof.
  apply (number_breaks_round_trip Decoder.loads (request "POST" (PDict aged))
           (query "GET" "s1") aged aged_item "s1" "age" 20 ∅).
  - reflexivity.
  - vm_compute. reflexivity.
  - reflexivity.
  - discriminate.
  - reflexivity.
  - vm_compute. reflexivity.
  - reflexivity.
  - vm_compute. reflexivity.
Defined.

Lemma get_by_key_witness :
  (with_ann !! "s1" = None ->
   serve (query "GET" "s1") with_ann = (inr (_resp 404 (error_body "not found")), with_ann))
  /\ (forall record answer,
        with_ann !! "s1" = Some record ->
        json_value (DDict record) = inr answer ->
        serve (query "GET" "s1") with_ann = (inr (_resp 200 answer), with_ann)
        /\ body (_resp 200 answer) = json_dumps answer
        /\ exists fields,
             answer = PDict fields
             /\ Forall2 (fun kv kv' => fst kv' = fst kv
                                       /\ json_value (snd kv) = inr (snd kv'))
                        record fields).
Proof.
  apply (get_by_key Decoder.loads (query "GET" "s1") "s1" with_ann).
  - reflexivity.
  - vm_compute. reflexivity.
  - discriminate.
  - apply map_Forall_singleton. split; discriminate.
Defined.

Lemma delete_by_key_witness :
  exists t',
    serve (query "DELETE" "s1") with_ann
    = (inr (_resp 200 (PDict [("message", PStr ("Student " +:+ "s1" +:+ " deleted"))])), t')
    /\ t' !! "s1" = None
    /\ (forall s, s <> "s1" -> t' !! s = with_ann !! s)
    /\ (with_ann !! "s1" = None -> t' = with_ann).
Proof.
  apply (delete_by_key Decoder.loads (query "DELETE" "s1") "s1" with_ann).
  - reflexivity.
  - vm_compute. reflexivity.
  - discriminate.
Defined.

Lemma options_preflight_witness :
  exists r,
    handler (mkEvent (Some "OPTIONS") None None) = Ret r
    /\ statusCode r = 200
    /\ headers r = cors_headers
    /\ body r = "{}"
    /\ forall (S : Type) (exec : call -> S -> outcome * S) (s : S),
         run exec (handler (mkEvent (Some "OPTIONS") None None)) s = (inr r, s)
         /\ trace exec (handler (mkEvent (Some "OPTIONS") None None)) s = [].
Proof.
  apply (options_preflight Decoder.loads (mkEvent (Some "OPTIONS") None None)).
  reflexivity.
Defined.

Lemma missing_input_witness :
  exists msg,
    handler (request "POST" (PDict [("name", PStr "Ann")]))
    = Ret (_resp 400 (error_body msg))
    /\ body (_resp 400 (error_body msg)) = json_dumps (PDict [("error", PStr msg)]).
Proof.
  apply (missing_input_is_400 Decoder.loads (request "POST" (PDict [("name", PStr "Ann")]))).
  apply (post_without_id _ _ [("name", PStr "Ann")]).
  - reflexivity.
  - vm_compute. reflexivity.
  - reflexivity.
Defined.

Lemma storage_exception_witness :
  run (failing (ClientError "connection refused")) (handler (query "GET" "s1")) tt
  = (inr (_resp 500 (error_body "connection refused")), tt)
  /\ statusCode (_resp 500 (error_body "connection refused")) = 500
  /\ body (_resp 500 (error_body "connection refused"))
     = json_dumps (PDict [("error", PStr "connection refused")]).
Proof.
  apply (proj2 (storage_exception_is_500 Decoder.loads (query "GET" "s1")
                  unit (failing (ClientError "connection refused")) tt)
               (get_item [("student_id", PStr "s1")])
               (ClientError "connection refused") tt).
  - vm_compute. reflexivity.
  - reflexivity.
Defined.

Lemma method_dispatch_witness :
  handler (mkEvent None None (Some {[ "student_id" := "s1" ]}))
  = handler (query "GET" "s1")
  /\ handler (query "PATCH" "s1") = Ret (_resp 405 (error_body "method not allowed"))
  /\ statusCode (_resp 405 (error_body "method not allowed")) = 405
  /\ body (_resp 405 (error_body "method not allowed"))
     = json_dumps (PDict [("error", PStr "method not allowed")]).
Proof.
  destruct (method_dispatch Decoder.loads None (Some {[ "student_id" := "s1" ]}))
    as [Hget Hother].
  split; [exact Hget|]. apply (Hother "PATCH").
  unfold known_methods. intros H.
  repeat (apply elem_of_cons in H as [H | H]; [discriminate|]).
  inversion H.
Defined.

Lemma invalid_json_witness :
  handler (mkEvent (Some "POST") (Some "{") None)
  = Ret (_resp 500 (error_body "Expecting value"))
  /\ statusCode (_resp 500 (error_body "Expecting value")) = 500
  /\ body (_resp 500 (error_body "Expecting value"))
     = json_dumps (PDict [("error", PStr "Expecting value")]).
Proof.
  apply (invalid_json_is_500 Decoder.loads (mkEvent (Some "POST") (Some "{") None)
           "{" (Decoder.JSONDecodeError "Expecting value")).
  - left. reflexivity.
  - reflexivity.
  - discriminate.
  - vm_compute. reflexivity.
Defined.

End Witnesses.

#[local] Set Warnings "-clear-no-such-hyp".

(** ** The handler as a whole *)

Lemma returns_try_except {A : Type} (P : A -> Prop) (p : prog A) (h : exn -> prog A) :
  returns P p -> (forall e, returns P (h e)) -> returns P (try_except p h).
Proof.
  intros Hp Hh. induction p as [a | e | c k IH]; cbn [try_except returns] in *; auto.
Qed.

Lemma calls_try_except {A : Type} (Q : call -> Prop) (p : prog A) (h : exn -> prog A) :
  calls Q p -> (forall e, calls Q (h e)) -> calls Q (try_except p h).
Proof.
  intros Hp Hh. induction p as [a | e | c k IH]; cbn [try_except calls] in *; auto.
  destruct Hp as [Hc Hk]. split; auto.
Qed.

Section Runs.

Context {S : Type} (exec : call -> S -> outcome * S).

Lemma run_returns {A : Type} (P : A -> Prop) (p : prog A) (s : S) :
  returns P p ->
  match fst (run exec p s) with
  | inr a => P a
  | inl _ => True
  end.
Proof.
  revert s. induction p as [a | e | c k IH]; intros s Hp; cbn [run fst]; auto.
  destruct (exec c s) as [o s']. apply IH, Hp.
Qed.

Lemma trace_calls {A : Type} (Q : call -> Prop) (p : prog A) (s : S) :
  calls Q p -> Forall Q (trace exec p s).
Proof.
  revert s. induction p as [a | e | c k IH]; intros s Hp; cbn [trace]; auto.
  destruct Hp as [Hc Hk]. destruct (exec c s) as [o s']. constructor; auto.
Qed.

(** The state after a run is the state after the calls of its trace. *)
Lemma run_state {A : Type} (p : prog A) (s : S) :
  snd (run exec p s) = fold_left (fun s c => snd (exec c s)) (trace exec p s) s.
Proof.
  revert s. induction p as [a | e | c k IH]; intros s; cbn [run trace fold_left snd]; auto.
  destruct (exec c s) as [o s'] eqn:He. cbn [fold_left]. rewrite He. apply IH.
Qed.

End Runs.

(** Walks through the branches of [dispatch]; [leaf] closes each end. *)
Ltac walk event leaf :=
  repeat (cbn [returns calls bind lift try_except table];
          try solve [leaf];
          match goal with
          | |- True => exact I
          | |- _ /\ _ => split
          | |- forall _ : exn + _, _ => intros [?|?]
          | |- context [String.eqb (method_of event) ?m] =>
              destruct (String.eqb_spec (method_of event) m)
          | |- context [lift ?x] => destruct x eqn:?
          | |- context [if ?b then _ else _] => destruct b eqn:?
          | |- context [put_loop ?x] => destruct (put_loop x) as [[? ?] ?] eqn:?
          end).

Section Whole.

Variable json_loads : string -> exn + pyval.

Lemma method_cases (event : Event) :
  method_of event ∈ crud_methods \/ method_of event = "OPTIONS"
  \/ method_of event ∉ known_methods.
Proof.
  unfold crud_methods, known_methods.
  destruct (decide (method_of event ∈ ["POST"; "GET"; "PUT"; "DELETE"])) as [H|H]; [auto|].
  destruct (decide (method_of event = "OPTIONS")) as [Ho|Ho]; [auto|].
  right. right. set_solver.
Qed.

(** Every [return] of the handler is a call of [_resp] with arguments of
    the [shape] of its method. *)
Lemma handler_shape (event : Event) :
  returns (fun r => exists status body,
               r = _resp status body /\ shape (method_of event) status body)
          (lambda_handler json_loads event).
Proof.
  destruct (String.eqb_spec (method_of event) "OPTIONS") as [Ho | Ho].
  { rewrite (handler_options _ _ Ho). cbn [returns].
    eexists _, _. split; [reflexivity | constructor; exact Ho]. }
  rewrite (handler_try _ _ Ho). apply returns_try_except.
  - unfold dispatch.
    walk event ltac:(eexists _, _; split; [reflexivity|];
                     first [ apply shape_created; assumption
                           | eapply shape_found; [assumption | | eassumption];
                             match goal with
                             | H : negb ?b = false |- _ => destruct b; [reflexivity | discriminate]
                             end
                           | apply shape_updated; assumption
                           | apply shape_deleted; assumption
                           | apply shape_no_fields; assumption
                           | apply shape_not_found; assumption
                           | apply shape_required; unfold crud_methods;
                             match goal with H : method_of event = _ |- _ => rewrite H end;
                             set_solver
                           | apply shape_not_allowed; unfold known_methods; set_solver ]).
  - intros e. cbn [returns]. eexists _, _. split; [reflexivity|].
    apply shape_error.
Qed.

Lemma handler_total {S : Type} (exec : call -> S -> outcome * S) (event : Event) (s : S) :
  exists r s', run exec (lambda_handler json_loads event) s = (inr r, s').
Proof.
  destruct (String.eqb_spec (method_of event) "OPTIONS") as [Ho | Ho].
  - rewrite (handler_options _ _ Ho). cbn [run]. eauto.
  - rewrite (handler_try _ _ Ho). apply run_try_except_total.
Qed.

Lemma handler_answered {S : Type} (exec : call -> S -> outcome * S)
    (P : Response -> Prop) (event : Event) (s : S) :
  (forall status body, shape (method_of event) status body -> P (_resp status body)) ->
  answered P (run exec (lambda_handler json_loads event) s).
Proof.
  intros HP. unfold answered.
  pose proof (run_returns exec _ _ s (handler_shape event)) as Hr.
  destruct (handler_total exec event s) as (r & s' & Hrun).
  rewrite Hrun in *. cbn [fst] in *. destruct Hr as (status & body & -> & Hs). auto.
Qed.

(** X1. Whatever the request and whatever the table does, the handler
    answers, and the answer carries the four fixed headers of [_resp]. *)
Theorem every_response_has_cors_headers {S : Type} (exec : call -> S -> outcome * S)
    (event : Event) (s : S) :
  answered (fun r => headers r = cors_headers)
           (run exec (lambda_handler json_loads event) s).
Proof. apply handler_answered. reflexivity. Qed.

(** X2. The status of an answer is one of 200, 400, 404, 405 and 500. *)
Theorem status_is_one_of_five {S : Type} (exec : call -> S -> outcome * S)
    (event : Event) (s : S) :
  answered (fun r => statusCode r ∈ statuses)
           (run exec (lambda_handler json_loads event) s).
Proof.
  apply handler_answered. intros status body Hs. cbn [_resp statusCode].
  unfold statuses. destruct Hs; set_solver.
Qed.

(** X3. An answer whose status is not 200 has the body [{"error": msg}]
    for some message, and nothing else in it. *)
Theorem failure_body_is_error_object {S : Type} (exec : call -> S -> outcome * S)
    (event : Event) (s : S) :
  answered (fun r => statusCode r <> 200 ->
                     exists msg, body r = json_dumps (PDict [("error", PStr msg)]))
           (run exec (lambda_handler json_loads event) s).
Proof.
  apply handler_answered. intros status body Hs. cbn [_resp statusCode].
  destruct Hs; intros Hne; try congruence; eexists; reflexivity.
Qed.

(** X4. The status is 405 exactly when the method is none of the five the
    handler knows, and it is 404 only for a GET. *)
Theorem status_405_and_404 {S : Type} (exec : call -> S -> outcome * S)
    (event : Event) (s : S) :
  answered (fun r => (statusCode r = 405 <-> method_of event ∉ known_methods)
                     /\ (statusCode r = 404 -> method_of event = "GET"))
           (run exec (lambda_handler json_loads event) s).
Proof.
  destruct (decide (method_of event ∈ known_methods)) as [Hk | Hk].
  - apply handler_answered. intros status body Hs. cbn [_resp statusCode].
    destruct Hs; (split; [split; [try discriminate | contradiction] | try discriminate]);
      auto.
  - rewrite (handler_unknown _ _ Hk). unfold answered. cbn [run fst _resp statusCode].
    split; [tauto | discriminate].
Qed.

Lemma handler_calls (event : Event) :
  calls (own_call (method_of event)) (lambda_handler json_loads event).
Proof.
  destruct (String.eqb_spec (method_of event) "OPTIONS") as [Ho | Ho].
  { rewrite (handler_options _ _ Ho). exact I. }
  rewrite (handler_try _ _ Ho). apply calls_try_except; [|intros; exact I].
  unfold dispatch. walk event ltac:(cbn [own_call]; assumption).
Qed.

(** X5. A request makes one call on the table at most, and only the call
    of its method: [put_item] for POST, [get_item] for GET, [update_item]
    for PUT, [delete_item] for DELETE. *)
Theorem one_call_of_its_method {S : Type} (exec : call -> S -> outcome * S)
    (event : Event) (s : S) :
  (length (trace exec (lambda_handler json_loads event) s) <= 1)%nat
  /\ Forall (own_call (method_of event)) (trace exec (lambda_handler json_loads event) s).
Proof. split; [apply trace_at_most_one | apply trace_calls, handler_calls]. Qed.

(** X6. A request whose method is not POST, PUT or DELETE leaves the table
    as it was. *)
Theorem only_writers_change_the_table (event : Event) (t : gmap string dbdict) :
  method_of event ∉ ["POST"; "PUT"; "DELETE"] ->
  snd (invoke json_loads event t) = t.
Proof.
  intros Hm. unfold invoke. rewrite run_state.
  pose proof (trace_calls table_exec _ _ t (handler_calls event)) as Hcalls.
  induction Hcalls as [|c l Hc _ IH]; [reflexivity|]. cbn [fold_left].
  assert (Hsame : snd (table_exec c t) = t); [|rewrite Hsame; exact IH].
  destruct c as [item | Key | Key e names values rv | Key]; cbn [own_call] in Hc.
  - exfalso. apply Hm. rewrite Hc. set_solver.
  - cbn [table_exec]. destruct (key_of Key); reflexivity.
  - exfalso. apply Hm. rewrite Hc. set_solver.
  - exfalso. apply Hm. rewrite Hc. set_solver.
Qed.

(** X7. A POST whose body decodes to [None], a [bool], an [int] or a
    [float] is answered 500 with the message of the [TypeError] that [in]
    raises, and the table is not called. *)
Theorem post_scalar_body_is_500 (event : Event) (v : pyval) :
  method_of event = "POST" ->
  json_loads (text_of event) = inr v ->
  scalar v = true ->
  exists msg, lambda_handler json_loads event = Ret (_resp 500 (error_body msg)).
Proof.
  intros Hm Hv Hs. rewrite (handler_post _ _ Hm), Hv.
  destruct v; try discriminate; eexists; reflexivity.
Qed.

(** X8. A PUT whose body decodes to anything but a dict is answered 500
    with the [AttributeError] of [.get], and the table is not called. *)
Theorem put_non_object_body_is_500 (event : Event) (v : pyval) :
  method_of event = "PUT" ->
  json_loads (text_of event) = inr v ->
  is_dict v = false ->
  lambda_handler json_loads event
  = Ret (_resp 500 (error_body ("'" +:+ type_name v
                                +:+ "' object has no attribute 'get'"))).
Proof.
  intros Hm Hv Hd.
  rewrite handler_try by (rewrite Hm; discriminate).
  rewrite Hm. unfold dispatch. simpl String.eqb. cbv iota.
  fold (text_of event). rewrite Hv.
  destruct v; try discriminate; reflexivity.
Qed.

(** X9. Once [in] has found [student_id] in the payload, a POST sends the
    payload as it is to [put_item], and answers from the outcome alone:
    200 with the payload it sent under [student], or 500 with the message
    of the exception. *)
Theorem post_answers_from_put_item {S : Type} (exec : call -> S -> outcome * S)
    (event : Event) (payload : pyval) (s : S) :
  method_of event = "POST" ->
  json_loads (text_of event) = inr payload ->
  py_in "student_id" payload = inr true ->
  trace exec (lambda_handler json_loads event) s = [put_item payload]
  /\ run exec (lambda_handler json_loads event) s
     = (inr (post_answer payload (fst (exec (put_item payload) s))),
        snd (exec (put_item payload) s)).
Proof.
  intros Hm Hv Hin. rewrite (handler_post _ _ Hm), Hv.
  cbn [lift bind]. rewrite Hin. cbn [lift bind negb table try_except run trace].
  destruct (exec (put_item payload) s) as [[e|res] s']; split; reflexivity.
Qed.

(** X10. The POST guard is Python's [in]: a body that decodes to a string
    with [student_id] inside it, or to a list holding the string
    [student_id], passes it, and [put_item] is called with that string or
    list as [Item]. *)
Theorem post_guard_is_membership (event : Event) (payload : pyval) :
  method_of event = "POST" ->
  json_loads (text_of event) = inr payload ->
  (exists x, payload = PStr x /\ is_substring "student_id" x = true)
  \/ (exists l, payload = PList l /\ PStr "student_id" ∈ l) ->
  first_call (lambda_handler json_loads event) = Some (put_item payload).
Proof.
  intros Hm Hv Hp.
  assert (Hin : py_in "student_id" payload = inr true).
  { destruct Hp as [(x & -> & Hx) | (l & -> & Hl)]; cbn [py_in]; f_equal; [exact Hx|].
    apply existsb_exists. exists (PStr "student_id").
    split; [apply list_elem_of_In, Hl | apply String.eqb_refl]. }
  rewrite (handler_post _ _ Hm), Hv. cbn [lift bind]. rewrite Hin. reflexivity.
Qed.

(** X11. A PUT whose [student_id] is absent or falsy ([None], [False], 0,
    the empty string, list or dict) is answered 400, whatever else the body
    holds, and the table is not called. *)
Theorem put_falsy_id_is_400 (event : Event) (d : dict) :
  method_of event = "PUT" ->
  json_loads (text_of event) = inr (PDict d) ->
  truthy (default PNone (dict_get "student_id" d)) = false ->
  lambda_handler json_loads event = Ret (_resp 400 (error_body "student_id is required")).
Proof.
  intros Hm Hd Hs. rewrite (handler_put _ _ _ Hm Hd). cbv zeta. rewrite Hs. reflexivity.
Qed.

(** X12. A PUT that passes its guards calls [update_item] with the key
    [student_id] of the body, [ReturnValues = ALL_NEW], and one SET action
    [#_k = :k] per field other than [student_id], in the order of the body,
    [#_k] naming the field and [:k] holding its value; [student_id] is never
    among the fields set. *)
Theorem put_sends_the_other_fields (event : Event) (d : dict) (sid : pyval) :
  method_of event = "PUT" ->
  json_loads (text_of event) = inr (PDict d) ->
  NoDup (keys d) ->
  dict_get "student_id" d = Some sid -> truthy sid = true ->
  non_key_fields d <> [] ->
  first_call (lambda_handler json_loads event)
  = Some (update_item [("student_id", sid)]
            ("SET " +:+ String.concat ", " (action_text <$> keys (non_key_fields d)))
            ((fun kv => ("#_" +:+ fst kv, PStr (fst kv))) <$> non_key_fields d)
            ((fun kv => (":" +:+ fst kv, snd kv)) <$> non_key_fields d)
            "ALL_NEW")
  /\ "student_id" ∉ keys (non_key_fields d).
Proof.
  intros Hm Hd Hnd Hs Ht Hf. split.
  - rewrite (handler_put _ _ _ Hm Hd), Hs. cbn [default from_option id]. rewrite Ht.
    rewrite (put_loop_fields d Hnd). cbn [negb].
    destruct (non_key_fields d) as [|kv F]; [congruence | reflexivity].
  - unfold keys, non_key_fields. intros Hin.
    apply list_elem_of_fmap in Hin as ([k v] & Hk & Hin).
    apply list_elem_of_filter in Hin as [Hne _]. cbn [fst] in *. congruence.
Qed.

(** X13. A PUT that reaches the table answers from the outcome of
    [update_item] alone: 200 with what came back under [Attributes] when
    [json.dumps] takes it, 500 with the message of [json.dumps] when it
    holds a Decimal, 500 with the message of the exception when the call
    raises, and 500 with ['Attributes'] when the reply has no such key.  In
    the second and the last case the update has been made by then. *)
Theorem put_answers_from_update_item {S : Type} (exec : call -> S -> outcome * S)
    (event : Event) (d : dict) (sid : pyval) (expr : list string) (names values : dict)
    (s : S) :
  method_of event = "PUT" ->
  json_loads (text_of event) = inr (PDict d) ->
  dict_get "student_id" d = Some sid -> truthy sid = true ->
  put_loop d = (expr, names, values) -> expr <> [] ->
  run exec (lambda_handler json_loads event) s
  = (inr (put_answer (fst (exec (update_item [("student_id", sid)]
                                   ("SET " +:+ String.concat ", " expr)
                                   names values "ALL_NEW") s))),
     snd (exec (update_item [("student_id", sid)]
                  ("SET " +:+ String.concat ", " expr) names values "ALL_NEW") s)).
Proof. intros Hm Hd Hs Ht Hloop Hexpr. apply (run_put _ exec _ d); assumption. Qed.

(** X14. A GET is answered 404 when the reply of [get_item] has no [Item],
    and also when its [Item] is falsy, an empty dict for one. *)
Theorem get_falsy_item_is_404 {S : Type} (exec : call -> S -> outcome * S)
    (event : Event) (sid : string) (res : dbdict) (s s' : S) :
  method_of event = "GET" ->
  params_of event !! "student_id" = Some sid -> sid <> EmptyString ->
  exec (get_item [("student_id", PStr sid)]) s = (inr res, s') ->
  db_truthy (default DNone (dict_get "Item" res)) = false ->
  run exec (lambda_handler json_loads event) s
  = (inr (_resp 404 (error_body "not found")), s').
Proof.
  intros Hm Hsid Hne Hexec Hitem.
  rewrite (run_get _ exec _ _ s Hm Hsid Hne), Hexec. cbn [fst snd get_answer].
  rewrite Hitem. reflexivity.
Qed.

(** *** Requests in a row *)

Lemma apply_sets_set_nonempty {V : Type} (sets item : list (string * V)) :
  sets <> [] -> apply_sets sets item <> [].
Proof.
  destruct sets as [|kv sets]; [congruence|]. intros _.
  apply (apply_sets_nonempty sets), dict_set_nonempty.
Qed.

(** X15. After a PUT that the table carries out, the PUT and the GET for
    the same [student_id] that follows answer from the same record, the one
    the table holds by then: both 200 with it when it holds no number, both
    500 with the message of [json.dumps] when it holds one. *)
Theorem put_then_get (put get : Event) (d : dict) (sets : dbdict) (s : string)
    (t : gmap string dbdict) :
  method_of put = "PUT" ->
  json_loads (text_of put) = inr (PDict d) ->
  NoDup (keys d) ->
  dict_get "student_id" d = Some (PStr s) -> s <> EmptyString ->
  non_key_fields d <> [] ->
  Forall (fun k => is_token k = true) (keys (non_key_fields d)) ->
  to_db_dict (non_key_fields d) = inr sets ->
  method_of get = "GET" -> params_of get !! "student_id" = Some s ->
  exists item t',
    snd (invoke json_loads put t) = t'
    /\ t' !! s = Some item
    /\ (forall record,
          json_value (DDict item) = inr record ->
          fst (invoke json_loads put t)
          = inr (_resp 200 (PDict [("message", PStr "Student record updated");
                                   ("student", record)]))
          /\ invoke json_loads get t' = (inr (_resp 200 record), t'))
    /\ (forall e,
          json_value (DDict item) = inl e ->
          fst (invoke json_loads put t) = inr (_resp 500 (error_body (str e)))
          /\ invoke json_loads get t' = (inr (_resp 500 (error_body (str e))), t')).
Proof.
  intros Hm Hd Hnd Hs Hne Hf Htok Hsets Hg Hgs.
  pose proof (invoke_put _ _ _ _ _ t Hm Hd Hnd Hs Hne Hf Htok Hsets) as Hput.
  cbv zeta in Hput.
  set (item := apply_sets sets (default [("student_id", DStr s)] (t !! s))) in *.
  assert (Hitem : item <> []).
  { apply apply_sets_set_nonempty. intros ->. apply to_db_dict_keys in Hsets.
    destruct (non_key_fields d); [congruence | discriminate]. }
  exists item, (<[s := item]> t). rewrite Hput. cbn [fst snd].
  rewrite (invoke_get _ _ _ _ Hg Hgs Hne), lookup_insert_eq.
  cbn [put_answer get_answer default from_option id dict_get String.eqb Ascii.eqb Bool.eqb].
  assert (Ht : db_truthy (DDict item) = true) by (destruct item; [congruence | reflexivity]).
  rewrite Ht. split; [reflexivity|]. split; [reflexivity|].
  split; intros x Hx; rewrite Hx; split; reflexivity.
Qed.

(** X16. POST does not look at what the table holds: when the table takes
    the payload of a second POST under the same [student_id] (it holds no
    float and no integer beyond 38 digits), the record of the first is
    replaced as a whole, and the table is what the second POST alone would
    have left. *)
Theorem post_replaces_record (first second : Event) (d0 d : dict) (item : dbdict)
    (s : string) (t : gmap string dbdict) :
  s <> EmptyString ->
  method_of first = "POST" -> json_loads (text_of first) = inr (PDict d0) ->
  dict_get "student_id" d0 = Some (PStr s) ->
  method_of second = "POST" -> json_loads (text_of second) = inr (PDict d) ->
  dict_get "student_id" d = Some (PStr s) ->
  to_db_dict d = inr item ->
  snd (invoke json_loads second (snd (invoke json_loads first t)))
  = snd (invoke json_loads second t)
  /\ snd (invoke json_loads second (snd (invoke json_loads first t))) !! s = Some item.
Proof.
  intros Hne Hm0 Hd0 Hs0 Hm Hd Hs Hitem.
  rewrite !(invoke_post _ _ _ _ _ Hm Hd Hs Hne), Hitem. cbn [snd].
  rewrite (invoke_post _ _ _ _ t Hm0 Hd0 Hs0 Hne).
  split; [|apply lookup_insert_eq].
  destruct (to_db_dict d0); cbn [snd]; [reflexivity | apply insert_insert_eq].
Qed.

Lemma table_exec_frame (c : call) (t : gmap string dbdict) :
  exists s, forall s', s' <> s -> snd (table_exec c t) !! s' = t !! s'.
Proof.
  destruct c as [item | Key | Key e names values rv | Key]; cbn [table_exec].
  - destruct item; try (exists EmptyString; reflexivity).
    destruct (to_db_dict d); [exists EmptyString; reflexivity|].
    destruct (dict_get "student_id" d ≫= valid_key) as [s|];
      [|exists EmptyString; reflexivity].
    exists s. intros s' Hs'. apply lookup_insert_ne. congruence.
  - exists EmptyString. destruct (key_of Key); reflexivity.
  - destruct (to_db_dict values) as [?|values']; [exists EmptyString; reflexivity|].
    destruct (key_of Key) as [s|];
      [|exists EmptyString; destruct (parse_update_expression e); reflexivity].
    destruct (parse_update_expression e) as [actions|]; [|exists EmptyString; reflexivity].
    destruct (mapM (resolve names values') actions) as [sets|];
      [|exists EmptyString; reflexivity].
    destruct (existsb (String.eqb "student_id") (keys sets));
      [exists EmptyString; reflexivity|].
    exists s. intros s' Hs'. apply lookup_insert_ne. congruence.
  - destruct (key_of Key) as [s|]; [|exists EmptyString; reflexivity].
    exists s. intros s' Hs'. apply lookup_delete_ne. congruence.
Qed.

(** X17. A request changes the record under one key at most: there is a
    key such that every record filed elsewhere is after the request what it
    was before. *)
Theorem request_touches_one_key (event : Event) (t : gmap string dbdict) :
  exists s, forall s', s' <> s -> snd (invoke json_loads event t) !! s' = t !! s'.
Proof.
  unfold invoke. rewrite run_state.
  pose proof (trace_at_most_one json_loads table_exec event t) as Hlen.
  destruct (trace table_exec (lambda_handler json_loads event) t) as [|c [|c' l]].
  - exists EmptyString. reflexivity.
  - apply table_exec_frame.
  - cbn [length] in Hlen. lia.
Qed.

(** *** The parts of the event *)

(** X18. The body is read by POST and PUT only, the query by GET and
    DELETE only: with any other method the handler does the same whatever
    the body holds, valid JSON or not, respectively whatever the query
    holds. *)
Theorem unread_parts_do_not_matter (method : string) (text text' : option string)
    (params params' : option (gmap string string)) :
  (method ∉ ["POST"; "PUT"] ->
   lambda_handler json_loads (mkEvent (Some method) text params)
   = lambda_handler json_loads (mkEvent (Some method) text' params))
  /\ (method ∉ ["GET"; "DELETE"] ->
      lambda_handler json_loads (mkEvent (Some method) text params)
      = lambda_handler json_loads (mkEvent (Some method) text params')).
Proof.
  unfold lambda_handler, dispatch. cbn [httpMethod default from_option id].
  split; intros Hm;
    repeat match goal with
           | |- context [String.eqb method ?m] =>
               destruct (String.eqb_spec method m) as [->|?]
           end;
    try reflexivity; exfalso; apply Hm; set_solver.
Qed.

(** X19. The body of an answer is never empty: the handler never gives
    [_resp] the [None] for which it leaves the body empty, and [json.dumps]
    writes at least one character. *)
Theorem body_is_never_empty {S : Type} (exec : call -> S -> outcome * S)
    (event : Event) (s : S) :
  answered (fun r => body r <> EmptyString)
           (run exec (lambda_handler json_loads event) s).
Proof.
  apply handler_answered. intros status body Hs.
  destruct Hs; try discriminate.
  eapply json_value_text; eassumption.
Qed.

(** *** Where the round trip and the merge hold *)


(** X21. A PUT whose body is an object with distinct keys, a non-empty
    string [student_id] = s and other fields whose names are tokens of
    letters, digits and underscores and whose values the table takes,
    applied to a table holding record r at s: the record at s becomes r
    with exactly those fields overwritten, the other fields of r and the
    records under the other keys are as they were, and the answer is made
    from the whole new record (200 with it, or 500 when it holds a
    number). *)
Theorem put_merges (event : Event) (d : dict) (sets r : dbdict) (s : string)
    (t : gmap string dbdict) :
  method_of event = "PUT" ->
  json_loads (text_of event) = inr (PDict d) ->
  NoDup (keys d) ->
  dict_get "student_id" d = Some (PStr s) -> s <> EmptyString ->
  non_key_fields d <> [] ->
  Forall (fun k => is_token k = true) (keys (non_key_fields d)) ->
  to_db_dict (non_key_fields d) = inr sets ->
  t !! s = Some r ->
  exists r' t',
    invoke json_loads event t = (inr (put_answer (inr [("Attributes", DDict r')])), t')
    /\ t' !! s = Some r'
    /\ (forall k v, (k, v) ∈ sets -> dict_get k r' = Some v)
    /\ (forall k, k ∉ keys (non_key_fields d) -> dict_get k r' = dict_get k r)
    /\ (forall s', s' <> s -> t' !! s' = t !! s').
Proof.
  intros Hm Hd Hnd Hs Hne Hf Htok Hsets Hr.
  pose proof (invoke_put _ _ _ _ _ t Hm Hd Hnd Hs Hne Hf Htok Hsets) as Hrun.
  rewrite Hr in Hrun. cbn [default from_option id] in Hrun.
  pose proof (to_db_dict_keys _ _ Hsets) as Hkeys.
  eexists _, _. split; [exact Hrun|]. split; [apply lookup_insert_eq|].
  split; [|split].
  - intros k v Hin. apply apply_sets_set; [|exact Hin].
    rewrite Hkeys. apply non_key_fields_NoDup, Hnd.
  - intros k Hk. apply apply_sets_other. rewrite Hkeys. exact Hk.
  - intros s' Hs'. apply lookup_insert_ne. congruence.
Qed.

End Whole.

(** *** The properties at work *)

Section Instances.

Import Scenario.

Local Notation "'handler'" := (lambda_handler Decoder.loads).
Local Notation "'serve'" := (invoke Decoder.loads).

Lemma only_writers_change_the_table_witness :
  snd (serve (query "GET" "s1") with_ann) = with_ann.
Proof.
  apply (only_writers_change_the_table Decoder.loads (query "GET" "s1") with_ann).
  intros H. repeat (apply elem_of_cons in H as [H|H]; [discriminate|]).
  inversion H.
Defined.

Lemma post_scalar_body_is_500_witness :
  exists msg, handler (request "POST" PNone) = Ret (_resp 500 (error_body msg)).
Proof.
  apply (post_scalar_body_is_500 Decoder.loads (request "POST" PNone) PNone);
    vm_compute; reflexivity.
Defined.

Lemma put_non_object_body_is_500_witness :
  handler (request "PUT" (PList []))
  = Ret (_resp 500 (error_body "'list' object has no attribute 'get'")).
Proof.
  apply (put_non_object_body_is_500 Decoder.loads (request "PUT" (PList [])) (PList []));
    vm_compute; reflexivity.
Defined.

Lemma post_answers_from_put_item_witness :
  trace table_exec (handler (request "POST" (PDict ann))) ∅ = [put_item (PDict ann)]
  /\ run table_exec (handler (request "POST" (PDict ann))) ∅
     = (inr (post_answer (PDict ann) (fst (table_exec (put_item (PDict ann)) ∅))),
        snd (table_exec (put_item (PDict ann)) ∅)).
Proof.
  apply (post_answers_from_put_item Decoder.loads table_exec (request "POST" (PDict ann))
           (PDict ann) ∅);
    vm_compute; reflexivity.
Defined.

Lemma post_guard_is_membership_witness :
  first_call (handler (request "POST" (PStr "my student_id")))
  = Some (put_item (PStr "my student_id")).
Proof.
  apply (post_guard_is_membership Decoder.loads (request "POST" (PStr "my student_id"))
           (PStr "my student_id")).
  - reflexivity.
  - vm_compute. reflexivity.
  - left. exists "my student_id". split; [reflexivity | vm_compute; reflexivity].
Defined.

Lemma put_falsy_id_is_400_witness :
  handler (request "PUT" (PDict [("student_id", PInt 0); ("grade", PStr "A")]))
  = Ret (_resp 400 (error_body "student_id is required")).
Proof.
  apply (put_falsy_id_is_400 Decoder.loads
           (request "PUT" (PDict [("student_id", PInt 0); ("grade", PStr "A")]))
           [("student_id", PInt 0); ("grade", PStr "A")]);
    vm_compute; reflexivity.
Defined.

Lemma put_sends_the_other_fields_witness :
  first_call (handler (request "PUT" (PDict grade)))
  = Some (update_item [("student_id", PStr "s1")]
            ("SET " +:+ String.concat ", " (action_text <$> keys (non_key_fields grade)))
            ((fun kv => ("#_" +:+ fst kv, PStr (fst kv))) <$> non_key_fields grade)
            ((fun kv => (":" +:+ fst kv, snd kv)) <$> non_key_fields grade)
            "ALL_NEW")
  /\ "student_id" ∉ keys (non_key_fields grade).
Proof.
  apply (put_sends_the_other_fields Decoder.loads (request "PUT" (PDict grade)) grade
           (PStr "s1")).
  - reflexivity.
  - vm_compute. reflexivity.
  - apply NoDup_cons. split; [|apply NoDup_singleton].
    intros H. apply list_elem_of_singleton in H. discriminate.
  - reflexivity.
  - reflexivity.
  - vm_compute. discriminate.
Defined.

Lemma put_answers_from_update_item_witness :
  run table_exec (handler (request "PUT" (PDict aged))) with_ann
  = (inr (put_answer (fst (table_exec (update_item [("student_id", PStr "s1")]
                                         ("SET " +:+ String.concat ", " ["#_age = :age"])
                                         [("#_age", PStr "age")]
                                         [(":age", PInt 20)] "ALL_NEW") with_ann))),
     snd (table_exec (update_item [("student_id", PStr "s1")]
                        ("SET " +:+ String.concat ", " ["#_age = :age"])
                        [("#_age", PStr "age")]
                        [(":age", PInt 20)] "ALL_NEW") with_ann)).
Proof.
  apply (put_answers_from_update_item Decoder.loads table_exec (request "PUT" (PDict aged))
           aged (PStr "s1") ["#_age = :age"] [("#_age", PStr "age")]
           [(":age", PInt 20)] with_ann).
  - reflexivity.
  - vm_compute. reflexivity.
  - reflexivity.
  - reflexivity.
  - vm_compute. reflexivity.
  - discriminate.
Defined.

Lemma get_falsy_item_is_404_witness :
  run (fun (_ : call) (n : nat) => (inr [("Item", DDict [])], n))
      (handler (query "GET" "s1")) 0%nat
  = (inr (_resp 404 (error_body "not found")), 0%nat).
Proof.
  apply (get_falsy_item_is_404 Decoder.loads
           (fun (_ : call) (n : nat) => (inr [("Item", DDict [])], n))
           (query "GET" "s1") "s1" [("Item", DDict [])] 0%nat 0%nat).
  - reflexivity.
  - vm_compute. reflexivity.
  - discriminate.
  - reflexivity.
  - reflexivity.
Defined.

Lemma put_then_get_witness :
  exists item t',
    snd (serve (request "PUT" (PDict aged)) with_ann) = t'
    /\ t' !! "s1" = Some item
    /\ (forall record,
          json_value (DDict item) = inr record ->
          fst (serve (request "PUT" (PDict aged)) with_ann)
          = inr (_resp 200 (PDict [("message", PStr "Student record updated");
                                   ("student", record)]))
          /\ serve (query "GET" "s1") t' = (inr (_resp 200 record), t'))
    /\ (forall e,
          json_value (DDict item) = inl e ->
          fst (serve (request "PUT" (PDict aged)) with_ann)
          = inr (_resp 500 (error_body (str e)))
          /\ serve (query "GET" "s1") t' = (inr (_resp 500 (error_body (str e))), t')).
Proof.
  apply (put_then_get Decoder.loads (request "PUT" (PDict aged)) (query "GET" "s1")
           aged [("age", DDecimal 20 0)] "s1" with_ann).
  - reflexivity.
  - vm_compute. reflexivity.
  - apply NoDup_cons. split; [|apply NoDup_singleton].
    intros H. apply list_elem_of_singleton in H. discriminate.
  - reflexivity.
  - discriminate.
  - vm_compute. discriminate.
  - vm_compute. repeat constructor.
  - vm_compute. reflexivity.
  - reflexivity.
  - vm_compute. reflexivity.
Defined.

Lemma post_replaces_record_witness :
  snd (serve (request "POST" (PDict aged)) (snd (serve (request "POST" (PDict ann)) ∅)))
  = snd (serve (request "POST" (PDict aged)) ∅)
  /\ snd (serve (request "POST" (PDict aged)) (snd (serve (request "POST" (PDict ann)) ∅)))
     !! "s1" = Some aged_item.
Proof.
  apply (post_replaces_record Decoder.loads (request "POST" (PDict ann))
           (request "POST" (PDict aged)) ann aged aged_item "s1" ∅);
    first [discriminate | vm_compute; reflexivity].
Defined.

Lemma unread_parts_do_not_matter_witness :
  handler (mkEvent (Some "GET") (Some "{not json") (Some {[ "student_id" := "s1" ]}))
  = handler (query "GET" "s1")
  /\ handler (mkEvent (Some "POST") (Some (json_dumps (PDict ann)))
                (Some {[ "student_id" := "s2" ]}))
     = handler (request "POST" (PDict ann)).
Proof.
  split.
  - apply (unread_parts_do_not_matter Decoder.loads "GET" (Some "{not json") None
             (Some {[ "student_id" := "s1" ]}) None).
    intros H. repeat (apply elem_of_cons in H as [H|H]; [discriminate|]).
    inversion H.
  - apply (unread_parts_do_not_matter Decoder.loads "POST" (Some (json_dumps (PDict ann)))
             None (Some {[ "student_id" := "s2" ]}) None).
    intros H. repeat (apply elem_of_cons in H as [H|H]; [discriminate|]).
    inversion H.
Defined.


Lemma put_merges_witness :
  exists r' t',
    serve (request "PUT" (PDict grade)) with_ann
    = (inr (put_answer (inr [("Attributes", DDict r')])), t')
    /\ t' !! "s1" = Some r'
    /\ (forall k v, (k, v) ∈ [("grade", DStr "A")] -> dict_get k r' = Some v)
    /\ (forall k, k ∉ keys (non_key_fields grade) -> dict_get k r' = dict_get k ann_item)
    /\ (forall s', s' <> "s1" -> t' !! s' = with_ann !! s').
Proof.
  apply (put_merges Decoder.loads (request "PUT" (PDict grade)) grade
           [("grade", DStr "A")] ann_item "s1" with_ann).
  - reflexivity.
  - vm_compute. reflexivity.
  - apply NoDup_cons. split; [|apply NoDup_singleton].
    intros H. apply list_elem_of_singleton in H. discriminate.
  - reflexivity.
  - discriminate.
  - vm_compute. discriminate.
  - vm_compute. repeat constructor.
  - vm_compute. reflexivity.
  - vm_compute. reflexivity.
Defined.

End Instances.
